(** * EOS-06 histogram generator: histogram engine and report writer

    A shallow embedding of [compute_histogram] and [write_histogram_to_text]
    of [eos06_histogram.py].  Both are short: the first filters the array
    and hands it to [np.histogram], [np.mean], [np.std], [np.min], [np.max]
    and [np.median]; the second writes a text file line by line.  The NumPy
    routines are modelled here after NumPy's own code for the options the
    program uses (an integer bin count, no range, no weights, [ddof = 0]).
    [get_variable_info] and [process_eos06_nc_file] follow, over a dataset
    given as a dictionary of variables, with the [os.path] functions the
    run uses; what the run meets outside (opening the dataset, making the
    directory, writing, the clock) is a parameter of the run, and its
    console output is not modelled.

    Number model.  An element of the input array is a [sample]: a finite
    value, NaN, or one of the two infinities.  A finite value is an exact
    rational ([Q]; every binary64 number is one) and arithmetic on finite
    values is exact: rounding and overflow of binary64 operations are not
    modelled.  The one irrational quantity, the standard deviation, is kept
    as the square root of an exact rational ([surd]) and read in [R]. *)

From Stdlib Require Import Reals Qreals.
From Stdlib Require Import Ascii String.
From Stdlib Require Import ZArith QArith Qround Qabs Qminmax List Bool Lia Lqa.
From Stdlib Require Import Sorting.Permutation Sorting.Sorted.
Import ListNotations.

Set Implicit Arguments.

Open Scope Q_scope.

(** ** Values and outcomes *)

Inductive sample : Type :=
| Fin (q : Q)
| NaN
| PosInf
| NegInf.

(** [np.isfinite] *)
Definition isfinite (s : sample) : bool :=
  match s with
  | Fin _ => true
  | _ => false
  end.

(** Exceptions the modelled code can raise. *)
Inductive exn : Type :=
| ValueError
| IndexError
| OSError.

Inductive result (A : Type) : Type :=
| Ok (a : A)
| Raise (e : exn).

Arguments Ok {A} a.
Arguments Raise {A} e.

Definition bind {A B : Type} (m : result A) (k : A -> result B) : result B :=
  match m with
  | Ok a => k a
  | Raise e => Raise e
  end.

Notation "x <- m ;; k" := (bind m (fun x => k))
  (at level 61, m at next level, right associativity).

(** ** NumPy reductions on a flat array of finite values *)

Module Np.

(** [a.min()]: a zero-size array has no minimum. *)
Definition min (a : list Q) : result Q :=
  match a with
  | [] => Raise ValueError
  | x :: r => Ok (fold_left Qmin r x)
  end.

Definition max (a : list Q) : result Q :=
  match a with
  | [] => Raise ValueError
  | x :: r => Ok (fold_left Qmax r x)
  end.

(** [np.sum]: left-to-right accumulation from zero. *)
Definition sum (a : list Q) : Q := fold_left Qplus a 0.

(** [np.mean]: the sum over the number of elements.  (On a zero-size array
    NumPy yields NaN; here the quotient by zero is [0], and the call sites
    are guarded by the emptiness test.) *)
Definition mean (a : list Q) : Q := sum a / inject_Z (Z.of_nat (length a)).

(** The square root of a non-negative rational, kept exact. *)
Inductive surd : Type :=
| Sqrt (radicand : Q).

(** [np.var] with the default [ddof=0]: the mean of the squared absolute
    deviations from the mean. *)
Definition var (a : list Q) : Q :=
  let m := mean a in
  mean (map (fun x => Qabs (x - m) * Qabs (x - m)) a).

(** [np.std] with the default [ddof=0]: the square root of [var]. *)
Definition std (a : list Q) : surd := Sqrt (var a).

(** Sorting, as [np.sort] / [np.partition] order the array. *)
Fixpoint insert (x : Q) (l : list Q) : list Q :=
  match l with
  | [] => [x]
  | y :: r => if Qle_bool x y then x :: l else y :: insert x r
  end.

Definition sort (a : list Q) : list Q := fold_right insert [] a.

(** [np.median]: the mean of the middle element (odd size) or of the two
    middle elements (even size) of the ordered array. *)
Definition median (a : list Q) : Q :=
  let s := sort a in
  let sz := length a in
  let index := Nat.div sz 2 in
  if Nat.even sz
  then mean (firstn 2 (skipn (index - 1) s))
  else mean (firstn 1 (skipn index s)).

(** [np.linspace(start, stop, num, endpoint=True)]: [step = (stop - start) / div]
    with [div = num - 1]; [y = arange(0, num) * step + start]; and the last
    point is set to [stop] when [num > 1]. *)
Definition linspace (start stop : Q) (num : nat) : list Q :=
  let div := (num - 1)%nat in
  let step := (stop - start) / inject_Z (Z.of_nat div) in
  let y := map (fun i => inject_Z (Z.of_nat i) * step + start) (seq 0 num) in
  if Nat.ltb 1 num then removelast y ++ [stop] else y.

(** [np.bincount(x, minlength=n)]: entry [j] is the number of occurrences of
    [j] in [x]; the length is [max(n, max(x) + 1)]; a negative entry is
    refused. *)
Definition count_eq (j : Z) (x : list Z) : nat :=
  length (filter (Z.eqb j) x).

Definition bincount (x : list Z) (minlength : nat) : result (list nat) :=
  if existsb (fun i => Z.ltb i 0) x then Raise ValueError
  else
    let top := fold_left Z.max x (-1)%Z in
    let len := Nat.max minlength (Z.to_nat (top + 1)) in
    Ok (map (fun j => count_eq (Z.of_nat j) x) (seq 0 len)).

(** Conversion of a float to [np.intp]: truncation toward zero. *)
Definition to_intp (q : Q) : Z := Z.quot (Qnum q) (Z.pos (Qden q)).

(** Indexing a one-dimensional array with a possibly negative index. *)
Definition getitem {A : Type} (a : list A) (i : Z) : result A :=
  let n := Z.of_nat (length a) in
  let j := if Z.ltb i 0 then (i + n)%Z else i in
  if Z.ltb j 0 then Raise IndexError
  else match nth_error a (Z.to_nat j) with
       | Some v => Ok v
       | None => Raise IndexError
       end.

(** [_get_outer_edges(a, range=None)]: the extrema of the data, [(0, 1)] for
    a zero-size array, and a range of width zero is widened by one half on
    each side. *)
Definition get_outer_edges (a : list Q) : result (Q * Q) :=
  match a with
  | [] => Ok (0, 1)
  | _ =>
    first_edge <- min a ;;
    last_edge <- max a ;;
    if Qeq_bool first_edge last_edge
    then Ok (first_edge - (1 # 2), last_edge + (1 # 2))
    else Ok (first_edge, last_edge)
  end.

(** The bin index of one value on the equal-width path of [np.histogram]:
    the scaled position truncated to an integer, the right end folded into
    the last bin, then the two adjustments against the edges themselves. *)
Definition bin_index (first_edge last_edge : Q) (n_equal_bins : nat)
    (bin_edges : list Q) (x : Q) : result Z :=
  let n := Z.of_nat n_equal_bins in
  let norm_denom := last_edge - first_edge in
  let f_index := ((x - first_edge) / norm_denom) * inject_Z n in
  let i0 := to_intp f_index in
  let i1 := if Z.eqb i0 n then (i0 - 1)%Z else i0 in
  e <- getitem bin_edges i1 ;;
  let i2 := if Qlt_le_dec x e then (i1 - 1)%Z else i1 in
  e' <- getitem bin_edges (i2 + 1)%Z ;;
  let i3 := if (Qle_bool e' x && negb (Z.eqb i2 (n - 1)))%bool
            then (i2 + 1)%Z else i2 in
  Ok i3.

Fixpoint mapM {A B : Type} (f : A -> result B) (l : list A) : result (list B) :=
  match l with
  | [] => Ok []
  | x :: r => y <- f x ;; ys <- mapM f r ;; Ok (y :: ys)
  end.

(** [np.histogram(a, bins)] for an integer [bins]: returns [(hist, bin_edges)].
    A bin count below one is refused; values outside the outer edges are
    dropped; the counts come from [bincount] and must have the shape of the
    accumulator of [n_equal_bins] zeros.  (NumPy runs over the array in
    blocks of 65536 values and adds the block counts up; the array is taken
    in one block here.) *)
Definition histogram (a : list Q) (bins : Z) : result (list nat * list Q) :=
  if Z.ltb bins 1 then Raise ValueError
  else
    let n_equal_bins := Z.to_nat bins in
    edges <- get_outer_edges a ;;
    let '(first_edge, last_edge) := edges in
    let bin_edges := linspace first_edge last_edge (n_equal_bins + 1) in
    let keep :=
      filter (fun x => Qle_bool first_edge x && Qle_bool x last_edge)%bool a in
    indices <-
      mapM (bin_index first_edge last_edge n_equal_bins bin_edges) keep ;;
    n <- bincount indices n_equal_bins ;;
    if Nat.eqb (length n) n_equal_bins then Ok (n, bin_edges)
    else Raise ValueError.

End Np.

(** ** The histogram engine *)

Record statistics : Type := mkStats {
  count : nat;
  mean : Q;
  std : Np.surd;
  min : Q;
  max : Q;
  median : Q
}.

(** What [compute_histogram] hands back: the triple of [None]s, the triple
    [(bin_edges, hist_counts, stats)], or an exception. *)
Inductive outcome : Type :=
| EMPTY
| Histogram (bin_edges : list Q) (hist_counts : list nat) (stats : statistics)
| Raised (e : exn).

(** [data[np.isfinite(data)]] *)
Definition clean_data (data : list sample) : list Q :=
  flat_map (fun s => match s with Fin q => [q] | _ => [] end) data.

Definition compute_histogram (data : list sample) (bins : Z) : outcome :=
  let clean := clean_data data in
  if Nat.eqb (length clean) 0 then EMPTY
  else
    match Np.histogram clean bins with
    | Raise e => Raised e
    | Ok (hist_counts, bin_edges) =>
      match Np.min clean, Np.max clean with
      | Ok mn, Ok mx =>
        Histogram bin_edges hist_counts
          {| count := length clean;
             mean := Np.mean clean;
             std := Np.std clean;
             min := mn;
             max := mx;
             median := Np.median clean |}
      | Raise e, _ => Raised e
      | _, Raise e => Raised e
      end
    end.

(** ** Text formatting *)

Module Fmt.

Local Open Scope string_scope.

(** The line terminator. *)
Definition nl : string := String (ascii_of_N 10) EmptyString.

Definition digit_char (d : Z) : ascii := ascii_of_N (Z.to_N (48 + d)).

(** The decimal digits of a non-negative integer, most significant first. *)
Fixpoint digits_aux (fuel : nat) (z : Z) (acc : string) : string :=
  match fuel with
  | O => acc
  | S f =>
    let acc' := String (digit_char (z mod 10)) acc in
    if Z.eqb (z / 10) 0 then acc' else digits_aux f (z / 10) acc'
  end.

Definition str_nonneg (z : Z) : string :=
  digits_aux (S (Z.to_nat (Z.log2 z))) z "".

(** [str] of an integer. *)
Definition str_int (z : Z) : string :=
  if Z.ltb z 0 then "-" ++ str_nonneg (- z) else str_nonneg z.

(** Rounding to the nearest integer, ties to the even one. *)
Definition round_half_even (t : Q) : Z :=
  let f := Qfloor t in
  match Qcompare (t - inject_Z f) (1 # 2) with
  | Lt => f
  | Gt => (f + 1)%Z
  | Eq => if Z.even f then f else (f + 1)%Z
  end.

(** Six digits, zero-padded on the left. *)
Definition pad6 (z : Z) : string :=
  string_of_list_ascii
    (map (fun p => digit_char ((z / p) mod 10))
         [100000; 10000; 1000; 100; 10; 1]%Z).

(** A sign, the integer digits of [r / 10^6], a point, and six decimals. *)
Definition fixed6 (negative : bool) (r : Z) : string :=
  (if negative then "-" else "")
  ++ str_nonneg (r / 1000000) ++ "." ++ pad6 (r mod 1000000).

(** [format(x, '.6f')] of a finite float: the value rounded to six decimal
    places. *)
Definition format_6f (q : Q) : string :=
  fixed6 (Qle_bool q 0 && negb (Qeq_bool q 0))
         (round_half_even (Qabs q * inject_Z 1000000)).

(** The same for the square root of [v]: the integer nearest to
    [sqrt v * 10^6] is found from the integer square root. *)
Definition format_6f_surd (s : Np.surd) : string :=
  match s with
  | Np.Sqrt v =>
    let t := v * inject_Z 1000000000000 in
    let k := Z.sqrt (Qfloor t) in
    let h := (inject_Z k + (1 # 2)) * (inject_Z k + (1 # 2)) in
    let r := match Qcompare t h with
             | Lt => k
             | Gt => (k + 1)%Z
             | Eq => if Z.even k then k else (k + 1)%Z
             end in
    fixed6 false r
  end.

End Fmt.

(** ** The report writer *)

Module Writer.

Local Open Scope string_scope.

(** The environment of one call: whether the destination can be opened for
    writing, and which [f.write] call, if any, fails.  Buffering is not
    modelled: a write call appends its text to the file or raises. *)
Record io_env : Type := {
  can_open : bool;
  fault : option nat
}.

(** An open file: the text written so far and the number of write calls. *)
Record handle : Type := {
  content : string;
  calls : nat
}.

Definition IO (A : Type) : Type := handle -> result A * handle.

Definition ret {A : Type} (a : A) : IO A := fun h => (Ok a, h).

Definition io_bind {A B : Type} (m : IO A) (k : A -> IO B) : IO B :=
  fun h =>
    match m h with
    | (Ok a, h') => k a h'
    | (Raise e, h') => (Raise e, h')
    end.

Definition lift {A : Type} (r : result A) : IO A := fun h => (r, h).

Notation "m >> k" := (io_bind m (fun _ => k))
  (at level 62, right associativity).
Notation "x <~ m ; k" := (io_bind m (fun x => k))
  (at level 62, m at next level, right associativity).

Definition fwrite (env : io_env) (text : string) : IO unit :=
  fun h =>
    match fault env with
    | Some k =>
      if Nat.eqb k (calls h) then (Raise OSError, h)
      else (Ok tt, {| content := content h ++ text; calls := S (calls h) |})
    | None => (Ok tt, {| content := content h ++ text; calls := S (calls h) |})
    end.

Fixpoint for_each {A : Type} (l : list A) (body : A -> IO unit) : IO unit :=
  match l with
  | [] => ret tt
  | x :: r => body x >> for_each r body
  end.

(** One pass of the loop over the bins. *)
Definition write_bin (env : io_env) (bin_edges : list Q) (hist_counts : list nat)
    (i : nat) : IO unit :=
  left <~ lift (Np.getitem bin_edges (Z.of_nat i)) ;
  right <~ lift (Np.getitem bin_edges (Z.of_nat i + 1)) ;
  let bin_center := (left + right) / 2 in
  c <~ lift (Np.getitem hist_counts (Z.of_nat i)) ;
  fwrite env (Fmt.format_6f bin_center ++ ", " ++ Fmt.str_int (Z.of_nat c) ++ ", "
              ++ Fmt.format_6f left ++ ", " ++ Fmt.format_6f right ++ Fmt.nl).

(** The body of the [with] block. *)
Definition write_body (env : io_env) (bin_edges : list Q) (hist_counts : list nat)
    (stats : statistics) (var_name : string)
    (var_info : option (list (string * string))) (now : string) : IO unit :=
  fwrite env ("# Histogram for variable: " ++ var_name ++ Fmt.nl) >>
  fwrite env ("# Generated on: " ++ now ++ Fmt.nl) >>
  match var_info with
  | Some ((_ :: _) as items) =>
    fwrite env ("# Variable info:" ++ Fmt.nl) >>
    for_each items (fun kv => fwrite env ("#   " ++ fst kv ++ ": " ++ snd kv ++ Fmt.nl))
  | _ => ret tt
  end >>
  fwrite env ("#" ++ Fmt.nl) >>
  fwrite env ("# Statistics:" ++ Fmt.nl) >>
  fwrite env ("#   Count: " ++ Fmt.str_int (Z.of_nat (count stats)) ++ Fmt.nl) >>
  fwrite env ("#   Mean: " ++ Fmt.format_6f (mean stats) ++ Fmt.nl) >>
  fwrite env ("#   Std Dev: " ++ Fmt.format_6f_surd (std stats) ++ Fmt.nl) >>
  fwrite env ("#   Min: " ++ Fmt.format_6f (min stats) ++ Fmt.nl) >>
  fwrite env ("#   Max: " ++ Fmt.format_6f (max stats) ++ Fmt.nl) >>
  fwrite env ("#   Median: " ++ Fmt.format_6f (median stats) ++ Fmt.nl) >>
  fwrite env ("#" ++ Fmt.nl) >>
  fwrite env ("# Format: bin_center, count, bin_left_edge, bin_right_edge" ++ Fmt.nl) >>
  fwrite env ("#" ++ Fmt.nl) >>
  for_each (seq 0 (length hist_counts)) (write_bin env bin_edges hist_counts).

(** [write_histogram_to_text]: [dest] is what the destination holds before
    the call ([None]: no such file); the result is the outcome of the call
    and what the destination holds after it.  Opening with mode ['w']
    empties the file; leaving the [with] block, normally or by an exception,
    closes it with what was written. *)
Definition write_histogram_to_text (env : io_env) (dest : option string)
    (bin_edges : list Q) (hist_counts : list nat) (stats : statistics)
    (var_name : string) (var_info : option (list (string * string)))
    (now : string) : result unit * option string :=
  if can_open env then
    let '(r, h) := write_body env bin_edges hist_counts stats var_name var_info now
                     {| content := ""; calls := 0 |} in
    (r, Some (content h))
  else (Raise OSError, dest).

End Writer.

(** ** Path names ([os.path], POSIX flavour) *)

Module Path.

Local Open Scope string_scope.

Definition sep : ascii := "/"%char.
Definition extsep : ascii := "."%char.

(** [(p[:i], p[i+1:])] for [i = p.rfind(c)], and [None] when [c] does not
    occur in [p]. *)
Fixpoint cut_last (c : ascii) (p : string) : option (string * string) :=
  match p with
  | EmptyString => None
  | String a r =>
    match cut_last c r with
    | Some (x, y) => Some (String a x, y)
    | None => if Ascii.eqb a c then Some (EmptyString, r) else None
    end
  end.

(** [p.rstrip(c)] *)
Fixpoint rstrip (c : ascii) (p : string) : string :=
  match p with
  | EmptyString => EmptyString
  | String a r =>
    match rstrip c r with
    | EmptyString => if Ascii.eqb a c then EmptyString else String a EmptyString
    | r' => String a r'
    end
  end.

(** [p == c * len(p)] *)
Fixpoint all_char (c : ascii) (p : string) : bool :=
  match p with
  | EmptyString => true
  | String a r => Ascii.eqb a c && all_char c r
  end.

(** [os.path.dirname]: the part up to the last separator, without its
    trailing separators unless it consists of separators only. *)
Definition dirname (p : string) : string :=
  match cut_last sep p with
  | None => ""
  | Some (x, _) =>
    let head := x ++ String sep "" in
    if all_char sep head then head else rstrip sep head
  end.

(** [os.path.basename]: the part after the last separator. *)
Definition basename (p : string) : string :=
  match cut_last sep p with
  | None => p
  | Some (_, y) => y
  end.

(** [os.path.splitext]: the extension starts at the last period of the
    last component, provided a character other than a period comes
    before it in that component. *)
Definition splitext (p : string) : string * string :=
  let prefix := match cut_last sep p with
                | None => ""
                | Some (x, _) => x ++ String sep ""
                end in
  match cut_last extsep (basename p) with
  | None => (p, "")
  | Some (stem, ext) =>
    if all_char extsep stem then (p, "")
    else (prefix ++ stem, String extsep ext)
  end.

Definition startswith (c : ascii) (p : string) : bool :=
  match p with
  | String a _ => Ascii.eqb a c
  | EmptyString => false
  end.

Fixpoint endswith (c : ascii) (p : string) : bool :=
  match p with
  | EmptyString => false
  | String a EmptyString => Ascii.eqb a c
  | String _ r => endswith c r
  end.

(** [os.path.join(a, b)] *)
Definition join (a b : string) : string :=
  if startswith sep b then b
  else if (String.eqb a "" || endswith sep a)%bool then a ++ b
  else a ++ String sep "" ++ b.

End Path.

(** ** Dictionaries, in insertion order *)

Definition dict (V : Type) : Type := list (string * V).

(** [d[k] = v]: an existing key keeps its place. *)
Fixpoint dict_set {V : Type} (d : dict V) (k : string) (v : V) : dict V :=
  match d with
  | [] => [(k, v)]
  | (k', v') :: r =>
    if String.eqb k' k then (k', v) :: r else (k', v') :: dict_set r k v
  end.

(** [d[k]], with [None] for [KeyError]. *)
Fixpoint dict_get {V : Type} (d : dict V) (k : string) : option V :=
  match d with
  | [] => None
  | (k', v') :: r => if String.eqb k' k then Some v' else dict_get r k
  end.

(** ** The dataset and the run over its variables *)

Section Orchestration.

Local Open Scope string_scope.

(** The values of NetCDF attributes and Python's [str] of a value are the
    collaborators' business. *)
Variable attr : Type.

Inductive pyvalue : Type :=
| Attribute (a : attr)
| Shape (s : list nat)
| Text (s : string)
| Dimensions (d : list string).

Variable py_str : pyvalue -> string.

(** A variable of the dataset: [read] is what [var[:].flatten()] gives. *)
Record variable : Type := {
  shape : list nat;
  dtype : string;
  dimensions : list string;
  ncattrs : list (string * attr);
  read : result (list sample)
}.

(** [dataset.variables] *)
Definition dataset : Type := dict variable.

(** [get_variable_info]: the attributes, then the shape, the data type and
    the dimension names. *)
Definition get_variable_info (ds : dataset) (var_name : string)
    : option (dict pyvalue) :=
  match dict_get ds var_name with
  | None => None
  | Some var =>
    let info :=
      fold_left (fun info a => dict_set info (fst a) (Attribute (snd a)))
                (ncattrs var) [] in
    let info := dict_set info "shape" (Shape (shape var)) in
    let info := dict_set info "dtype" (Text (dtype var)) in
    let info := dict_set info "dimensions" (Dimensions (dimensions var)) in
    Some info
  end.

(** The files, by path, and the directories [os.makedirs] was asked for. *)
Record filesystem : Type := {
  files : string -> option string;
  made : list string
}.

(** What the run meets outside: [read_nc_file] on a path ([None] when the
    file cannot be read), whether a directory can be made, how writing to a
    path goes, and the time stamp at the writing of a variable. *)
Record world : Type := {
  open_dataset : string -> option dataset;
  makedirs_ok : string -> bool;
  io_of : string -> Writer.io_env;
  clock : string -> string
}.

Definition update (f : string -> option string) (k : string)
    (v : option string) : string -> option string :=
  fun p => if String.eqb p k then v else f p.

(** [variables and var_name not in variables] *)
Definition skipped_by_filter (variables : option (list string))
    (var_name : string) : bool :=
  match variables with
  | Some ((_ :: _) as names) => negb (existsb (String.eqb var_name) names)
  | _ => false
  end.

Definition output_file (output_dir base_filename var_name : string) : string :=
  Path.join output_dir (base_filename ++ "_" ++ var_name ++ "_histogram.txt").

(** One pass of the loop over the variables; the state is the file system
    and [processed_vars].  Whatever is raised between [try] and [except] is
    caught.  Console output is not modelled. *)
Definition process_variable (w : world) (ds : dataset)
    (output_dir base_filename : string) (bins : Z)
    (variables : option (list string))
    (st : filesystem * nat) (item : string * variable) : filesystem * nat :=
  let '(var_name, var) := item in
  if skipped_by_filter variables var_name then st
  else if Nat.leb (length (shape var)) 1 then st
  else
    match read var with
    | Raise _ => st
    | Ok data_flat =>
      match compute_histogram data_flat bins with
      | Histogram bin_edges hist_counts stats =>
        match get_variable_info ds var_name with
        | None => st
        | Some var_info =>
          let path := output_file output_dir base_filename var_name in
          let '(r, after) :=
            Writer.write_histogram_to_text (io_of w path) (files (fst st) path)
              bin_edges hist_counts stats var_name
              (Some (map (fun kv => (fst kv, py_str (snd kv))) var_info))
              (clock w var_name) in
          let fs := {| files := update (files (fst st)) path after;
                       made := made (fst st) |} in
          match r with
          | Ok _ => (fs, S (snd st))
          | Raise _ => (fs, snd st)
          end
        end
      | _ => st
      end
    end.

(** [process_eos06_nc_file]: [Ok None] when the dataset cannot be opened,
    [Ok (Some n)] with the number [n] of variables processed at the end of
    a run, an exception when the output directory cannot be made. *)
Definition process_eos06_nc_file (w : world) (fs : filesystem)
    (filepath : string) (output_dir : option string) (bins : Z)
    (variables : option (list string)) : result (option nat) * filesystem :=
  match open_dataset w filepath with
  | None => (Ok None, fs)
  | Some ds =>
    let output_dir :=
      match output_dir with
      | None =>
        let d := Path.dirname filepath in
        if String.eqb d "" then "." else d
      | Some d => d
      end in
    if makedirs_ok w output_dir then
      let fs := {| files := files fs; made := (made fs ++ [output_dir])%list |} in
      let base_filename := fst (Path.splitext (Path.basename filepath)) in
      let '(fs, processed_vars) :=
        fold_left (process_variable w ds output_dir base_filename bins variables)
                  ds (fs, 0%nat) in
      (Ok (Some processed_vars), fs)
    else (Raise OSError, fs)
  end.

End Orchestration.

Arguments Shape {attr} s.
Arguments Text {attr} s.
Arguments Dimensions {attr} d.

(** * Vocabulary of the statements *)

(** ** Edges and bins *)

(** The [i]-th of [n + 1] equally spaced points from [lo] to [hi]. *)
Definition equally_spaced (lo hi : Q) (n i : nat) : Q :=
  lo + inject_Z (Z.of_nat i) * ((hi - lo) / inject_Z (Z.of_nat n)).

(** The scaled position of [x] between the outer edges, as [np.histogram]
    computes it before truncation. *)
Definition position (lo hi : Q) (n : nat) (x : Q) : Q :=
  ((x - lo) / (hi - lo)) * inject_Z (Z.of_nat n).

(** The bin a value falls in: the integer part of its position, with the
    right outer edge folded into the last bin. *)
Definition bin_of (lo hi : Q) (n : nat) (x : Q) : Z :=
  let i := Qfloor (position lo hi n x) in
  if Z.eqb i (Z.of_nat n) then (i - 1)%Z else i.

(** Membership in bin [j]: half-open, except the last bin, which is closed. *)
Definition in_bin (lo hi : Q) (n j : nat) (x : Q) : Prop :=
  equally_spaced lo hi n j <= x /\
  (if Nat.eqb j (n - 1) then x <= equally_spaced lo hi n (S j)
   else x < equally_spaced lo hi n (S j)).

Definition in_range (n : nat) (i : Z) : Prop := (0 <= i < Z.of_nat n)%Z.

(** The outer edges for given extrema: a range of width zero is widened. *)
Definition outer_edges (mn mx : Q) : Q * Q :=
  if Qeq_bool mn mx then (mn - (1 # 2), mx + (1 # 2)) else (mn, mx).

(** The count vector over the bins of [lo .. hi]. *)
Definition bin_counts (lo hi : Q) (n : nat) (a : list Q) : list nat :=
  map (fun j => Np.count_eq (Z.of_nat j) (map (bin_of lo hi n) a)) (seq 0 n).

(** Does [x] fall in bin [i] of [edges]: [[edges[i], edges[i+1])], and
    [[edges[i], edges[i+1]]] for the last of the [n] bins. *)
Definition in_interval (edges : list Q) (n i : nat) (x : Q) : bool :=
  (Qle_bool (nth i edges 0) x &&
   (if Nat.eqb i (n - 1) then Qle_bool x (nth (S i) edges 0)
    else negb (Qle_bool (nth (S i) edges 0) x)))%bool.

(** The edges are [bins + 1] equally spaced points from [lo] to [hi], both
    ends included, in non-decreasing order. *)
Definition spans (edges : list Q) (lo hi : Q) (bins : nat) : Prop :=
  length edges = (bins + 1)%nat /\
  nth 0 edges 0 == lo /\ nth bins edges 0 == hi /\
  (forall i, (i <= bins)%nat -> nth i edges 0 == equally_spaced lo hi bins i) /\
  (forall i, (i < bins)%nat -> nth i edges 0 <= nth (S i) edges 0).

(** ** Statistics *)

Definition is_minimum (m : Q) (a : list Q) : Prop :=
  In m a /\ forall y, In y a -> m <= y.

Definition is_maximum (m : Q) (a : list Q) : Prop :=
  In m a /\ forall y, In y a -> y <= m.

(** The sum of the elements, written as the mathematical series. *)
Definition total (a : list Q) : Q := fold_right Qplus 0 a.

(** The value a [surd] stands for. *)
Definition surd_val (s : Np.surd) : R :=
  match s with
  | Np.Sqrt v => sqrt (Q2R v)
  end.

(** The middle value of an ordered array [s] of [sz] elements: the element
    at [sz / 2] when [sz] is odd, the average of the two around the middle
    when it is even. *)
Definition middle_value (s : list Q) : Q :=
  let sz := length s in
  if Nat.even sz
  then (nth (sz / 2 - 1) s 0 + nth (sz / 2) s 0) / 2
  else nth (sz / 2) s 0.

(** ** The document *)

Section DocumentText.

Local Open Scope string_scope.

Variables (bin_edges : list Q) (hist_counts : list nat) (stats : statistics).
Variables (var_name : string) (var_info : option (list (string * string))).
Variable now : string.

(** The text of one [f.write] call per element, in the order of the calls. *)
Definition info_chunks : list string :=
  match var_info with
  | Some ((_ :: _) as items) =>
    ("# Variable info:" ++ Fmt.nl)
      :: map (fun kv => "#   " ++ fst kv ++ ": " ++ snd kv ++ Fmt.nl) items
  | _ => []
  end.

Definition stats_chunks : list string :=
  [ "#" ++ Fmt.nl;
    "# Statistics:" ++ Fmt.nl;
    "#   Count: " ++ Fmt.str_int (Z.of_nat (count stats)) ++ Fmt.nl;
    "#   Mean: " ++ Fmt.format_6f (mean stats) ++ Fmt.nl;
    "#   Std Dev: " ++ Fmt.format_6f_surd (std stats) ++ Fmt.nl;
    "#   Min: " ++ Fmt.format_6f (min stats) ++ Fmt.nl;
    "#   Max: " ++ Fmt.format_6f (max stats) ++ Fmt.nl;
    "#   Median: " ++ Fmt.format_6f (median stats) ++ Fmt.nl;
    "#" ++ Fmt.nl;
    "# Format: bin_center, count, bin_left_edge, bin_right_edge" ++ Fmt.nl;
    "#" ++ Fmt.nl ].

Definition header_chunks : list string :=
  ("# Histogram for variable: " ++ var_name ++ Fmt.nl)
    :: ("# Generated on: " ++ now ++ Fmt.nl)
    :: List.app info_chunks stats_chunks.

(** The line of bin [i]. *)
Definition data_line (i : nat) : string :=
  let left := nth i bin_edges 0%Q in
  let right := nth (S i) bin_edges 0%Q in
  Fmt.format_6f ((left + right) / 2) ++ ", "
  ++ Fmt.str_int (Z.of_nat (nth i hist_counts 0%nat)) ++ ", "
  ++ Fmt.format_6f left ++ ", " ++ Fmt.format_6f right ++ Fmt.nl.

Definition data_chunks : list string :=
  map data_line (seq 0 (length hist_counts)).

Definition document_chunks : list string := (header_chunks ++ data_chunks)%list.

End DocumentText.

Definition join (chunks : list string) : string :=
  fold_right String.append EmptyString chunks.

(** Writing a list of texts, one call each. *)
Definition emit (env : Writer.io_env) (chunks : list string) : Writer.IO unit :=
  Writer.for_each chunks (Writer.fwrite env).

(** No write call of a document of [n] calls fails. *)
Definition no_write_fails (env : Writer.io_env) (n : nat) : Prop :=
  match Writer.fault env with
  | None => True
  | Some k => (n <= k)%nat
  end.

Definition is_digit (c : ascii) : bool :=
  (N.leb 48 (N_of_ascii c) && N.leb (N_of_ascii c) 57)%bool.

Definition all_digits (s : string) : bool :=
  forallb is_digit (list_ascii_of_string s).

(** A text is a fixed-point number with six decimals: an optional minus
    sign, one or more digits, a point, six digits. *)
Definition six_decimals (s : string) : Prop :=
  exists sign int_part frac,
    s = (sign ++ int_part ++ "." ++ frac)%string /\
    (sign = ""%string \/ sign = "-"%string) /\
    int_part <> ""%string /\ all_digits int_part = true /\
    String.length frac = 6%nat /\ all_digits frac = true.

(** A text is a plain integer: one or more digits. *)
Definition plain_integer (s : string) : Prop :=
  s <> ""%string /\ all_digits s = true.

(** The first character of a text. *)
Definition head_char (s : string) : option ascii :=
  match s with
  | String a _ => Some a
  | EmptyString => None
  end.

(** A text starts with a digit or a minus sign. *)
Definition starts_like_number (s : string) : Prop :=
  exists a, head_char s = Some a /\ (a = "-"%char \/ is_digit a = true).

(** ** Dictionaries and path names *)

(** [d.keys()] *)
Definition keys {V : Type} (d : dict V) : list string := map fst d.

(** No name occurs twice. *)
Fixpoint distinct (l : list string) : bool :=
  match l with
  | [] => true
  | x :: r => negb (existsb (String.eqb x) r) && distinct r
  end.

(** The keys [get_variable_info] sets after the attributes. *)
Definition reserved : list string :=
  ["shape"; "dtype"; "dimensions"]%string.

Definition is_reserved (k : string) : bool := existsb (String.eqb k) reserved.

(** The character [c] occurs in [s]. *)
Fixpoint occurs (c : ascii) (s : string) : bool :=
  match s with
  | EmptyString => false
  | String a r => Ascii.eqb a c || occurs c r
  end.

(** ** The run *)

(** The output directory of a run: the one given, or the directory of the
    input file, or the current directory. *)
Definition run_dir (filepath : string) (output_dir : option string) : string :=
  match output_dir with
  | None =>
    let d := Path.dirname filepath in
    if String.eqb d "" then "."%string else d
  | Some d => d
  end.

(** The input file's name without its extension. *)
Definition run_base (filepath : string) : string :=
  fst (Path.splitext (Path.basename filepath)).

(** The file a run writes for a variable. *)
Definition run_path (filepath : string) (output_dir : option string)
    (var_name : string) : string :=
  output_file (run_dir filepath output_dir) (run_base filepath) var_name.

(** The file system once the output directory is made. *)
Definition with_dir (fs : filesystem) (dir : string) : filesystem :=
  {| files := files fs; made := made fs ++ [dir] |}.

(** A variable passes the filter and has at least two dimensions. *)
Definition eligible {attr : Type} (variables : option (list string))
    (item : string * variable attr) : bool :=
  negb (skipped_by_filter variables (fst item))
  && Nat.leb 2 (length (shape (snd item))).

(** A variable is passed over: filtered out, a coordinate variable,
    unreadable, or without a finite value. *)
Definition passed_over {attr : Type} (variables : option (list string))
    (var_name : string) (var : variable attr) : bool :=
  skipped_by_filter variables var_name
  || Nat.leb (length (shape var)) 1
  || match read var with
     | Raise _ => true
     | Ok data_flat => negb (existsb isfinite data_flat)
     end.

(** The variable information as the writer receives it. *)
Definition rendered {attr : Type} (py_str : pyvalue attr -> string)
    (info : dict (pyvalue attr)) : option (list (string * string)) :=
  Some (map (fun kv => (fst kv, py_str (snd kv))) info).

(** ** The claims the code does not meet, as they are worded *)

(** C2 as the specification words it: the edges run from the minimum to the
    maximum of the finite values. *)
Definition edges_from_min_to_max (data : list sample) (bins : Z) : Prop :=
  exists bin_edges hist_counts stats,
    compute_histogram data bins = Histogram bin_edges hist_counts stats /\
    is_minimum (min stats) (clean_data data) /\
    is_maximum (max stats) (clean_data data) /\
    spans bin_edges (min stats) (max stats) (Z.to_nat bins) /\
    length hist_counts = Z.to_nat bins.

(** C6 as the specification words it: a bin count of zero or less is
    refused whatever the input. *)
Definition nonpositive_bins_refused (data : list sample) (bins : Z) : Prop :=
  (bins <= 0)%Z -> compute_histogram data bins = Raised ValueError.

(** C7 as the specification words it: for [[5.0, 5.0, 5.0]] and three bins
    every edge is 5.0 and the counts add up to 3. *)
Definition edges_collapse_to_value : Prop :=
  exists bin_edges hist_counts stats,
    compute_histogram [Fin 5; Fin 5; Fin 5] 3
      = Histogram bin_edges hist_counts stats /\
    (forall e, In e bin_edges -> e == 5) /\
    list_sum hist_counts = 3%nat.

(** C9 as the specification words it: the call either succeeds with the
    full document in the destination, or fails and leaves the destination
    as it was. *)
Definition write_is_atomic (env : Writer.io_env) (dest : option string)
    (bin_edges : list Q) (hist_counts : list nat) (stats : statistics)
    (var_name : string) (var_info : option (list (string * string)))
    (now : string) : Prop :=
  let out := Writer.write_histogram_to_text env dest bin_edges hist_counts stats
               var_name var_info now in
  (fst out = Ok tt /\
   snd out = Some (join (document_chunks bin_edges hist_counts stats
                           var_name var_info now))) \/
  ((exists e, fst out = Raise e) /\ snd out = dest).

(** ** Sample inputs *)

(** The histogram of [[1, 2, 3, 4, NaN, inf]] with two bins, as a sample
    input of the writer. *)
Definition sample_edges : list Q := [1; 5 # 2; 4].
Definition sample_counts : list nat := [2; 2]%nat.
Definition sample_stats : statistics :=
  {| count := 4; mean := 5 # 2; std := Np.Sqrt (5 # 4);
     min := 1; max := 4; median := 5 # 2 |}.
Definition fair_weather : Writer.io_env :=
  {| Writer.can_open := true; Writer.fault := None |}.

(** A dataset of a data variable with an attribute named [shape], a
    coordinate variable, and a variable without a finite value. *)
Definition sample_variable : variable string :=
  {| shape := [2; 3]%nat; dtype := "float32";
     dimensions := ["lat"; "lon"]%string;
     ncattrs := [("units", "K"); ("shape", "odd")]%string;
     read := Ok [Fin 1; Fin 2; Fin 3; Fin 4; NaN; PosInf] |}.

Definition plain_variable : variable string :=
  {| shape := [2; 2]%nat; dtype := "float64";
     dimensions := ["y"; "x"]%string;
     ncattrs := [("units", "m"); ("long_name", "height")]%string;
     read := Ok [Fin 1; Fin 2; Fin 3; Fin 5] |}.

Definition coordinate_variable : variable string :=
  {| shape := [3]%nat; dtype := "float32"; dimensions := ["lat"]%string;
     ncattrs := []; read := Ok [Fin 1; Fin 2; Fin 3] |}.

Definition blank_variable : variable string :=
  {| shape := [1; 2]%nat; dtype := "float32";
     dimensions := ["lat"; "lon"]%string;
     ncattrs := []; read := Ok [NaN; NaN] |}.

Definition sample_dataset : dataset string :=
  [("sst", sample_variable); ("lat", coordinate_variable);
   ("mask", blank_variable); ("dem", plain_variable)]%string.

Definition sample_str (v : pyvalue string) : string :=
  match v with
  | Attribute a => a
  | Shape _ => "(2, 3)"
  | Text s => s
  | Dimensions _ => "('lat', 'lon')"
  end.

Definition sample_world : world string :=
  {| open_dataset := fun _ => Some sample_dataset;
     makedirs_ok := fun _ => true;
     io_of := fun _ => fair_weather;
     clock := fun _ => "2024-01-01 00:00:00"%string |}.

Definition empty_disk : filesystem :=
  {| files := fun _ => None; made := [] |}.

(** The second line of the data section cannot be written. *)
Definition disk_fills_up : Writer.io_env :=
  {| Writer.can_open := true; Writer.fault := Some 14%nat |}.

(** * Lemmas *)

(** ** Facts on the reductions *)

Lemma Qmin_cases (x y : Q) : Qmin x y = x \/ Qmin x y = y.
Proof.
  unfold Qmin, GenericMinMax.gmin. destruct (x ?= y); auto.
Qed.

Lemma Qmax_cases (x y : Q) : Qmax x y = x \/ Qmax x y = y.
Proof.
  unfold Qmax, GenericMinMax.gmax. destruct (x ?= y); auto.
Qed.

Lemma fold_min_le (r : list Q) : forall x,
  fold_left Qmin r x <= x /\ (forall y, In y r -> fold_left Qmin r x <= y).
Proof.
  induction r as [|z r IH]; intros x; simpl.
  - split; [apply Qle_refl | tauto].
  - destruct (IH (Qmin x z)) as [H1 H2]. split.
    + eapply Qle_trans; [exact H1 | apply Q.le_min_l].
    + intros y [<- | Hy]; [| auto].
      eapply Qle_trans; [exact H1 | apply Q.le_min_r].
Qed.

Lemma fold_min_in (r : list Q) : forall x, In (fold_left Qmin r x) (x :: r).
Proof.
  induction r as [|z r IH]; intros x; simpl; [auto |].
  destruct (IH (Qmin x z)) as [H | H].
  - destruct (Qmin_cases x z) as [E | E]; [left | right; left]; congruence.
  - auto.
Qed.

Lemma fold_max_ge (r : list Q) : forall x,
  x <= fold_left Qmax r x /\ (forall y, In y r -> y <= fold_left Qmax r x).
Proof.
  induction r as [|z r IH]; intros x; simpl.
  - split; [apply Qle_refl | tauto].
  - destruct (IH (Qmax x z)) as [H1 H2]. split.
    + eapply Qle_trans; [apply Q.le_max_l | exact H1].
    + intros y [<- | Hy]; [| auto].
      eapply Qle_trans; [apply Q.le_max_r | exact H1].
Qed.

Lemma fold_max_in (r : list Q) : forall x, In (fold_left Qmax r x) (x :: r).
Proof.
  induction r as [|z r IH]; intros x; simpl; [auto |].
  destruct (IH (Qmax x z)) as [H | H].
  - destruct (Qmax_cases x z) as [E | E]; [left | right; left]; congruence.
  - auto.
Qed.

Lemma min_spec (a : list Q) :
  a <> [] ->
  exists m, Np.min a = Ok m /\ In m a /\ (forall y, In y a -> m <= y).
Proof.
  destruct a as [|x r]; [congruence | intros _].
  exists (fold_left Qmin r x). split; [reflexivity |]. split.
  - apply fold_min_in.
  - destruct (fold_min_le r x) as [H1 H2]. intros y [<- | Hy]; auto.
Qed.

Lemma max_spec (a : list Q) :
  a <> [] ->
  exists m, Np.max a = Ok m /\ In m a /\ (forall y, In y a -> y <= m).
Proof.
  destruct a as [|x r]; [congruence | intros _].
  exists (fold_left Qmax r x). split; [reflexivity |]. split.
  - apply fold_max_in.
  - destruct (fold_max_ge r x) as [H1 H2]. intros y [<- | Hy]; auto.
Qed.

(** ** Equally spaced edges *)

Lemma Qle_div_iff (a b c : Q) : 0 < b -> (c <= a / b <-> c * b <= a).
Proof.
  intros Hb.
  assert (E : a / b * b == a) by (field; intro H; rewrite H in Hb; discriminate).
  rewrite <- (Qmult_le_r c (a / b) b Hb). rewrite E. reflexivity.
Qed.

Lemma Qdiv_le_iff (a b c : Q) : 0 < b -> (a / b <= c <-> a <= c * b).
Proof.
  intros Hb.
  assert (E : a / b * b == a) by (field; intro H; rewrite H in Hb; discriminate).
  rewrite <- (Qmult_le_r (a / b) c b Hb). rewrite E. reflexivity.
Qed.

Lemma inject_nat_pos (n : nat) : (1 <= n)%nat -> 0 < inject_Z (Z.of_nat n).
Proof.
  intros H. change 0 with (inject_Z 0). rewrite <- Zlt_Qlt. lia.
Qed.

Lemma nth_map_seq {A : Type} (f : nat -> A) (d : A) (m i : nat) :
  (i < m)%nat -> nth i (map f (seq 0 m)) d = f i.
Proof.
  intros Hi.
  rewrite (nth_indep _ d (f 0%nat)) by (rewrite length_map, length_seq; lia).
  rewrite (map_nth f), seq_nth by lia. reflexivity.
Qed.

Section Edges.

Variables lo hi : Q.
Variable n : nat.
Hypothesis Hlt : lo < hi.
Hypothesis Hn : (1 <= n)%nat.

Let N : Q := inject_Z (Z.of_nat n).

Lemma N_pos : 0 < N.
Proof. apply inject_nat_pos, Hn. Qed.

Lemma linspace_length : length (Np.linspace lo hi (n + 1)) = (n + 1)%nat.
Proof.
  unfold Np.linspace. replace (n + 1)%nat with (S n) by lia.
  destruct (Nat.ltb 1 (S n)).
  - rewrite seq_S, map_app. simpl map.
    rewrite removelast_last, length_app, length_map, length_seq.
    simpl. lia.
  - rewrite length_map, length_seq. reflexivity.
Qed.

Lemma linspace_nth (i : nat) :
  (i <= n)%nat ->
  nth i (Np.linspace lo hi (n + 1)) 0 == equally_spaced lo hi n i.
Proof.
  intros Hi. unfold Np.linspace, equally_spaced.
  replace (Nat.ltb 1 (n + 1)) with true
    by (symmetry; apply Nat.ltb_lt; lia).
  replace (n + 1 - 1)%nat with n by lia.
  replace (n + 1)%nat with (S n) by lia.
  rewrite seq_S, map_app. simpl map. rewrite removelast_last.
  destruct (Nat.eq_dec i n) as [-> | Hne].
  - rewrite app_nth2; rewrite length_map, length_seq; [| lia].
    rewrite Nat.sub_diag. simpl. fold N.
    pose proof N_pos as HN. field. intro H. rewrite H in HN. discriminate.
  - rewrite app_nth1 by (rewrite length_map, length_seq; lia).
    rewrite nth_map_seq by lia. ring.
Qed.

Lemma position_ge (x : Q) (j : nat) :
  inject_Z (Z.of_nat j) <= position lo hi n x <-> equally_spaced lo hi n j <= x.
Proof.
  unfold position, equally_spaced. fold N. pose proof N_pos as HN.
  assert (Hw : 0 < hi - lo) by lra.
  set (J := inject_Z (Z.of_nat j)).
  assert (E1 : (x - lo) / (hi - lo) * N == ((x - lo) * N) / (hi - lo))
    by (field; intro H; rewrite H in Hw; discriminate).
  assert (E2 : lo + J * ((hi - lo) / N) <= x <-> J * (hi - lo) / N <= x - lo).
  { assert (E : J * ((hi - lo) / N) == J * (hi - lo) / N)
      by (field; intro H; rewrite H in HN; discriminate).
    rewrite <- E. split; intro; lra. }
  rewrite E1, E2, (Qle_div_iff _ _ Hw), (Qdiv_le_iff _ _ HN).
  reflexivity.
Qed.

Lemma position_lt (x : Q) (j : nat) :
  position lo hi n x < inject_Z (Z.of_nat j) <-> x < equally_spaced lo hi n j.
Proof.
  split; intros H; apply Qnot_le_lt; intro C; apply position_ge in C;
    apply (Qlt_not_le _ _ H C).
Qed.

Lemma equally_spaced_first : equally_spaced lo hi n 0 == lo.
Proof. unfold equally_spaced. simpl. ring. Qed.

Lemma equally_spaced_last : equally_spaced lo hi n n == hi.
Proof.
  unfold equally_spaced. fold N. pose proof N_pos as HN.
  field. intro H. rewrite H in HN. discriminate.
Qed.

Lemma equally_spaced_step (i : nat) :
  equally_spaced lo hi n i < equally_spaced lo hi n (S i).
Proof.
  unfold equally_spaced. fold N. pose proof N_pos as HN.
  assert (Hs : 0 < (hi - lo) / N) by (apply Qlt_shift_div_l; lra).
  rewrite Nat2Z.inj_succ. unfold Z.succ. rewrite inject_Z_plus.
  set (s := (hi - lo) / N) in *. clearbody s.
  change (inject_Z 1) with 1. set (I := inject_Z (Z.of_nat i)).
  setoid_replace ((I + 1) * s) with (I * s + s) by ring. lra.
Qed.

Lemma Qfloor_unique (t : Q) (z : Z) :
  inject_Z z <= t -> t < inject_Z (z + 1) -> Qfloor t = z.
Proof.
  intros H1 H2.
  pose proof (Qfloor_le t) as F1. pose proof (Qlt_floor t) as F2.
  assert (z < Qfloor t + 1)%Z
    by (rewrite Zlt_Qlt; eapply Qle_lt_trans; eassumption).
  assert (Qfloor t < z + 1)%Z
    by (rewrite Zlt_Qlt; eapply Qle_lt_trans; eassumption).
  lia.
Qed.

Lemma position_range (x : Q) :
  lo <= x -> x <= hi -> 0 <= position lo hi n x /\ position lo hi n x <= N.
Proof.
  intros H1 H2. split.
  - change 0 with (inject_Z (Z.of_nat 0)). apply position_ge.
    rewrite equally_spaced_first. exact H1.
  - unfold position. pose proof N_pos as HN.
    assert (Hw : 0 < hi - lo) by lra.
    assert (H : (x - lo) / (hi - lo) <= 1) by (apply (Qdiv_le_iff _ _ Hw); lra).
    apply (Qmult_le_compat_r _ _ N) in H; [| apply Qlt_le_weak, HN].
    rewrite Qmult_1_l in H. exact H.
Qed.

Lemma to_intp_floor (q : Q) : 0 <= q -> Np.to_intp q = Qfloor q.
Proof.
  destruct q as [a b]. unfold Qle, Np.to_intp, Qfloor. simpl. intros H.
  apply Z.quot_div_nonneg; lia.
Qed.

Lemma bin_of_range (x : Q) :
  lo <= x -> x <= hi -> (0 <= bin_of lo hi n x < Z.of_nat n)%Z.
Proof.
  intros H1 H2. destruct (position_range H1 H2) as [P1 P2].
  unfold bin_of.
  assert (F1 : (0 <= Qfloor (position lo hi n x))%Z)
    by (change 0%Z with (Qfloor 0); apply Qfloor_resp_le, P1).
  assert (F2 : (Qfloor (position lo hi n x) <= Z.of_nat n)%Z)
    by (rewrite <- (Qfloor_Z (Z.of_nat n)); apply Qfloor_resp_le, P2).
  destruct (Z.eqb_spec (Qfloor (position lo hi n x)) (Z.of_nat n)); lia.
Qed.

(** A value between the outer edges lies in the bin [bin_of] names. *)
Lemma bin_of_in_bin (x : Q) :
  lo <= x -> x <= hi -> in_bin lo hi n (Z.to_nat (bin_of lo hi n x)) x.
Proof.
  intros H1 H2. pose proof (bin_of_range H1 H2) as R.
  destruct (position_range H1 H2) as [P1 P2].
  pose proof (Qfloor_le (position lo hi n x)) as F1.
  pose proof (Qlt_floor (position lo hi n x)) as F2.
  unfold in_bin, bin_of in *.
  destruct (Z.eqb_spec (Qfloor (position lo hi n x)) (Z.of_nat n)) as [E | NE].
  - replace (Z.to_nat (Qfloor (position lo hi n x) - 1)) with (n - 1)%nat by lia.
    rewrite Nat.eqb_refl. replace (S (n - 1)) with n by lia. split.
    + apply position_ge. eapply Qle_trans; [| exact F1].
      rewrite E, <- Zle_Qle. lia.
    + rewrite equally_spaced_last. exact H2.
  - set (j := Z.to_nat (Qfloor (position lo hi n x))).
    assert (Ej : Z.of_nat j = Qfloor (position lo hi n x)) by (subst j; lia).
    split.
    + apply position_ge. rewrite Ej. exact F1.
    + assert (L : x < equally_spaced lo hi n (S j)).
      { apply position_lt. rewrite Nat2Z.inj_succ, Ej. exact F2. }
      destruct (Nat.eqb j (n - 1)); [apply Qlt_le_weak |]; exact L.
Qed.

(** Bins do not overlap: a value lies in no bin but the one [bin_of] names. *)
Lemma in_bin_bin_of (j : nat) (x : Q) :
  (j < n)%nat -> in_bin lo hi n j x -> bin_of lo hi n x = Z.of_nat j.
Proof.
  intros Hj [L U]. unfold bin_of.
  apply position_ge in L.
  destruct (Nat.eqb_spec j (n - 1)) as [E | NE].
  - (* last bin *)
    destruct (Qlt_le_dec x (equally_spaced lo hi n (S j))) as [U' | U'].
    + apply position_lt in U'.
      assert (F : Qfloor (position lo hi n x) = Z.of_nat j)
        by (apply Qfloor_unique; [exact L |
            replace (Z.of_nat j + 1)%Z with (Z.of_nat (S j)) by lia; exact U']).
      rewrite F. destruct (Z.eqb_spec (Z.of_nat j) (Z.of_nat n)); lia.
    + assert (Hx : hi <= x)
        by (rewrite <- equally_spaced_last; replace n with (S j) at 2 by lia; exact U').
      assert (P : inject_Z (Z.of_nat n) <= position lo hi n x)
        by (apply position_ge; rewrite equally_spaced_last; exact Hx).
      assert (Hx' : x <= hi)
        by (rewrite <- equally_spaced_last; replace n with (S j) at 2 by lia; exact U).
      assert (Hlo : lo <= x) by lra.
      destruct (position_range Hlo Hx') as [_ P2].
      assert (F : Qfloor (position lo hi n x) = Z.of_nat n).
      { apply Z.le_antisymm.
        - rewrite <- (Qfloor_Z (Z.of_nat n)). apply Qfloor_resp_le, P2.
        - rewrite <- (Qfloor_Z (Z.of_nat n)) at 1. apply Qfloor_resp_le, P. }
      rewrite F, Z.eqb_refl. lia.
  - apply position_lt in U.
    assert (F : Qfloor (position lo hi n x) = Z.of_nat j)
      by (apply Qfloor_unique; [exact L |
          replace (Z.of_nat j + 1)%Z with (Z.of_nat (S j)) by lia; exact U]).
    rewrite F. destruct (Z.eqb_spec (Z.of_nat j) (Z.of_nat n)); lia.
Qed.

Lemma getitem_linspace (i : Z) :
  (0 <= i <= Z.of_nat n)%Z ->
  exists e, Np.getitem (Np.linspace lo hi (n + 1)) i = Ok e /\
            e == equally_spaced lo hi n (Z.to_nat i).
Proof.
  intros Hi. exists (nth (Z.to_nat i) (Np.linspace lo hi (n + 1)) 0). split.
  - unfold Np.getitem.
    destruct (Z.ltb_spec i 0) as [C | _]; [lia |].
    destruct (Z.ltb_spec i 0) as [C | _]; [lia |].
    rewrite (nth_error_nth' _ 0) by (rewrite linspace_length; lia).
    reflexivity.
  - apply linspace_nth. lia.
Qed.

(** On its own edges the index computation of [np.histogram] returns
    [bin_of]: neither adjustment fires. *)
Lemma bin_index_bin_of (x : Q) :
  lo <= x -> x <= hi ->
  Np.bin_index lo hi n (Np.linspace lo hi (n + 1)) x = Ok (bin_of lo hi n x).
Proof.
  intros H1 H2.
  pose proof (bin_of_range H1 H2) as R.
  destruct (bin_of_in_bin H1 H2) as [L U].
  destruct (position_range H1 H2) as [P1 _].
  unfold Np.bin_index. fold (position lo hi n x).
  rewrite (to_intp_floor P1). fold (bin_of lo hi n x).
  destruct (getitem_linspace (i := bin_of lo hi n x)) as (e & -> & Ee); [lia |].
  simpl bind.
  destruct (Qlt_le_dec x e) as [C | _].
  { exfalso. rewrite Ee in C. apply (Qlt_not_le _ _ C L). }
  destruct (getitem_linspace (i := (bin_of lo hi n x + 1)%Z)) as (e' & -> & Ee'); [lia |].
  simpl bind.
  replace (Z.to_nat (bin_of lo hi n x + 1))
    with (S (Z.to_nat (bin_of lo hi n x))) in Ee' by lia.
  destruct (Z.eqb_spec (bin_of lo hi n x) (Z.of_nat n - 1)) as [E | NE].
  - rewrite andb_false_r. reflexivity.
  - replace (Nat.eqb (Z.to_nat (bin_of lo hi n x)) (n - 1)) with false in U
      by (symmetry; apply Nat.eqb_neq; lia).
    replace (Qle_bool e' x) with false; [reflexivity |].
    symmetry. apply not_true_is_false. intro C.
    apply Qle_bool_iff in C. rewrite Ee' in C. apply (Qlt_not_le _ _ U C).
Qed.

End Edges.

(** ** Counting *)

Lemma mapM_pure {A B : Type} (f : A -> result B) (g : A -> B) (l : list A) :
  (forall x, In x l -> f x = Ok (g x)) -> Np.mapM f l = Ok (map g l).
Proof.
  induction l as [| x r IH]; intros H; simpl; [reflexivity |].
  rewrite (H x) by (left; reflexivity). simpl.
  rewrite IH by (intros y Hy; apply H; right; exact Hy). reflexivity.
Qed.

Lemma filter_all {A : Type} (p : A -> bool) (l : list A) :
  (forall x, In x l -> p x = true) -> filter p l = l.
Proof.
  induction l as [| x r IH]; intros H; simpl; [reflexivity |].
  rewrite (H x) by (left; reflexivity).
  f_equal. apply IH. intros y Hy. apply H. right. exact Hy.
Qed.

Lemma fold_max_bound (n : Z) (x : list Z) : forall acc,
  (acc < n)%Z -> Forall (fun i => (i < n)%Z) x -> (fold_left Z.max x acc < n)%Z.
Proof.
  induction x as [| a r IH]; intros acc Hacc HF; simpl; [exact Hacc |].
  inversion HF; subst. apply IH; [lia | assumption].
Qed.

Lemma bincount_in_range (n : nat) (x : list Z) :
  Forall (in_range n) x ->
  Np.bincount x n = Ok (map (fun j => Np.count_eq (Z.of_nat j) x) (seq 0 n)).
Proof.
  intros HF. unfold Np.bincount.
  replace (existsb (fun i => Z.ltb i 0) x) with false.
  - assert (B : (fold_left Z.max x (-1) < Z.of_nat n)%Z).
    { apply fold_max_bound; [lia |].
      eapply Forall_impl; [| exact HF]. unfold in_range. intros; lia. }
    replace (Nat.max n (Z.to_nat (fold_left Z.max x (-1)%Z + 1))) with n by lia.
    reflexivity.
  - symmetry. apply not_true_is_false. intro C.
    apply existsb_exists in C. destruct C as (i & Hi & C).
    rewrite Forall_forall in HF. specialize (HF i Hi).
    unfold in_range in HF. apply Z.ltb_lt in C. lia.
Qed.

(** One index is counted by exactly one entry of the count vector. *)
Lemma indicator_sum (a : Z) : forall (m s : nat),
  list_sum (map (fun j => if Z.eqb (Z.of_nat j) a then 1%nat else 0%nat) (seq s m))
  = if ((Z.of_nat s <=? a) && (a <? Z.of_nat (s + m)))%Z%bool then 1%nat else 0%nat.
Proof.
  induction m as [| m IH]; intros s; simpl.
  - destruct (Z.leb_spec (Z.of_nat s) a), (Z.ltb_spec a (Z.of_nat (s + 0))); simpl; lia.
  - rewrite IH.
    destruct (Z.eqb_spec (Z.of_nat s) a),
             (Z.leb_spec (Z.of_nat (S s)) a), (Z.ltb_spec a (Z.of_nat (S s + m))),
             (Z.leb_spec (Z.of_nat s) a), (Z.ltb_spec a (Z.of_nat (s + S m)));
      simpl; lia.
Qed.

Lemma count_eq_cons (j a : Z) (x : list Z) :
  Np.count_eq j (a :: x) = ((if Z.eqb j a then 1 else 0) + Np.count_eq j x)%nat.
Proof.
  unfold Np.count_eq. simpl. destruct (Z.eqb j a); reflexivity.
Qed.

Lemma list_sum_map_add {A : Type} (f g : A -> nat) (l : list A) :
  list_sum (map (fun j => (f j + g j)%nat) l)
  = (list_sum (map f l) + list_sum (map g l))%nat.
Proof.
  induction l as [| a r IH]; simpl; [reflexivity | rewrite IH; lia].
Qed.

Lemma counts_sum (n : nat) (x : list Z) :
  Forall (in_range n) x ->
  list_sum (map (fun j => Np.count_eq (Z.of_nat j) x) (seq 0 n)) = length x.
Proof.
  induction 1 as [| a r Ha _ IH]; simpl.
  - induction (seq 0 n) as [| j l IHl]; simpl; [reflexivity | exact IHl].
  - rewrite (map_ext _ (fun j => ((if Z.eqb (Z.of_nat j) a then 1 else 0)
                                  + Np.count_eq (Z.of_nat j) r)%nat))
      by (intros j; apply count_eq_cons).
    rewrite list_sum_map_add, IH, indicator_sum.
    unfold in_range in Ha.
    destruct (Z.leb_spec (Z.of_nat 0) a), (Z.ltb_spec a (Z.of_nat (0 + n)));
      simpl; lia.
Qed.

(** An index is counted for each value whose bin it is. *)
Lemma count_eq_map {A : Type} (g : A -> Z) (j : Z) (l : list A) :
  Np.count_eq j (map g l) = length (filter (fun x => Z.eqb j (g x)) l).
Proof.
  unfold Np.count_eq. induction l as [| a r IH]; simpl; [reflexivity |].
  destruct (Z.eqb j (g a)); simpl; rewrite IH; reflexivity.
Qed.

(** ** The histogram of a non-empty array *)

Lemma outer_edges_lt (mn mx : Q) :
  mn <= mx ->
  fst (outer_edges mn mx) < snd (outer_edges mn mx) /\
  fst (outer_edges mn mx) <= mn /\ mx <= snd (outer_edges mn mx).
Proof.
  intros H. unfold outer_edges.
  destruct (Qeq_bool mn mx) eqn:E; simpl.
  - apply Qeq_bool_iff in E. repeat split; lra.
  - apply Qeq_bool_neq in E. repeat split; lra.
Qed.

Lemma extrema_spec (a : list Q) :
  a <> [] ->
  exists mn mx,
    Np.min a = Ok mn /\ Np.max a = Ok mx /\ In mn a /\ In mx a /\
    (forall y, In y a -> mn <= y /\ y <= mx) /\
    Np.get_outer_edges a = Ok (outer_edges mn mx).
Proof.
  intros Ha.
  destruct (min_spec Ha) as (mn & Emn & Imn & Lmn).
  destruct (max_spec Ha) as (mx & Emx & Imx & Lmx).
  exists mn, mx. repeat split; auto.
  unfold Np.get_outer_edges. destruct a as [| x r]; [congruence |].
  rewrite Emn, Emx. simpl bind. unfold outer_edges.
  destruct (Qeq_bool mn mx); reflexivity.
Qed.

Lemma histogram_spec (a : list Q) (bins : Z) (mn mx : Q) :
  a <> [] -> (1 <= bins)%Z ->
  Np.min a = Ok mn -> Np.max a = Ok mx ->
  let lo := fst (outer_edges mn mx) in
  let hi := snd (outer_edges mn mx) in
  let n := Z.to_nat bins in
  Np.histogram a bins = Ok (bin_counts lo hi n a, Np.linspace lo hi (n + 1)).
Proof.
  intros Ha Hb Emn Emx lo hi n.
  destruct (extrema_spec Ha) as (mn' & mx' & Emn' & Emx' & Imn & Imx & B & EO).
  assert (mn' = mn) by congruence. assert (mx' = mx) by congruence. subst mn' mx'.
  assert (Hle : mn <= mx) by (apply (B mn Imn)).
  destruct (outer_edges_lt Hle) as (Hlt & Hlo & Hhi).
  fold lo hi in Hlt, Hlo, Hhi.
  assert (Hn : (1 <= n)%nat) by (subst n; lia).
  assert (R : forall x, In x a -> lo <= x /\ x <= hi).
  { intros x Hx. destruct (B x Hx). split; lra. }
  unfold Np.histogram.
  destruct (Z.ltb_spec bins 1) as [C | _]; [lia |].
  rewrite EO. simpl bind.
  rewrite (surjective_pairing (outer_edges mn mx)). fold lo hi n.
  rewrite filter_all.
  2:{ intros x Hx. destruct (R x Hx) as [H1 H2].
      apply andb_true_iff. split; apply Qle_bool_iff; assumption. }
  rewrite (mapM_pure _ (bin_of lo hi n)).
  2:{ intros x Hx. destruct (R x Hx). apply bin_index_bin_of; assumption. }
  simpl bind.
  assert (F : Forall (in_range n) (map (bin_of lo hi n) a)).
  { apply Forall_forall. intros i Hi. apply in_map_iff in Hi.
    destruct Hi as (x & <- & Hx). destruct (R x Hx).
    apply bin_of_range; assumption. }
  rewrite (bincount_in_range F). simpl bind.
  rewrite length_map, length_seq, Nat.eqb_refl. reflexivity.
Qed.

Lemma clean_data_filter (data : list sample) :
  length (clean_data data) = length (filter isfinite data).
Proof.
  induction data as [| s r IH]; simpl; [reflexivity |].
  destruct s; simpl; rewrite ?IH; reflexivity.
Qed.

Lemma outer_edges_cover (a : list Q) (mn mx : Q) :
  is_minimum mn a -> is_maximum mx a ->
  fst (outer_edges mn mx) < snd (outer_edges mn mx) /\
  forall x, In x a ->
    fst (outer_edges mn mx) <= x /\ x <= snd (outer_edges mn mx).
Proof.
  intros [Imn Lmn] [Imx Lmx].
  destruct (outer_edges_lt (Lmn mx Imx)) as (Hlt & Hlo & Hhi).
  split; [exact Hlt |]. intros x Hx.
  pose proof (Lmn x Hx). pose proof (Lmx x Hx). split; lra.
Qed.

(** What [compute_histogram] returns when some value is finite and the bin
    count is positive. *)
Lemma compute_histogram_ok (data : list sample) (bins : Z) :
  clean_data data <> [] -> (1 <= bins)%Z ->
  exists mn mx,
    is_minimum mn (clean_data data) /\ is_maximum mx (clean_data data) /\
    compute_histogram data bins =
      Histogram
        (Np.linspace (fst (outer_edges mn mx)) (snd (outer_edges mn mx))
                     (Z.to_nat bins + 1))
        (bin_counts (fst (outer_edges mn mx)) (snd (outer_edges mn mx))
                    (Z.to_nat bins) (clean_data data))
        {| count := length (clean_data data);
           mean := Np.mean (clean_data data);
           std := Np.std (clean_data data);
           min := mn;
           max := mx;
           median := Np.median (clean_data data) |}.
Proof.
  intros Ha Hb.
  destruct (extrema_spec Ha) as (mn & mx & Emn & Emx & Imn & Imx & B & _).
  exists mn, mx.
  split; [split; [exact Imn | intros y Hy; apply (B y Hy)] |].
  split; [split; [exact Imx | intros y Hy; apply (B y Hy)] |].
  unfold compute_histogram.
  destruct (Nat.eqb_spec (length (clean_data data)) 0) as [C | _].
  { apply length_zero_iff_nil in C. contradiction. }
  rewrite (histogram_spec Ha Hb Emn Emx), Emn, Emx. reflexivity.
Qed.

(** ** Statistics *)

Lemma fold_left_total (a : list Q) : forall acc,
  fold_left Qplus a acc == acc + total a.
Proof.
  induction a as [| x r IH]; intros acc; simpl.
  - ring.
  - rewrite IH. ring.
Qed.

Lemma sum_total (a : list Q) : Np.sum a == total a.
Proof. unfold Np.sum. rewrite fold_left_total. ring. Qed.

Lemma length_pos (a : list Q) : a <> [] -> 0 < inject_Z (Z.of_nat (length a)).
Proof.
  intros Ha. apply inject_nat_pos. destruct a; [congruence | simpl; lia].
Qed.

Lemma mean_total (a : list Q) :
  a <> [] -> Np.mean a * inject_Z (Z.of_nat (length a)) == total a.
Proof.
  intros Ha. pose proof (length_pos Ha) as HN.
  unfold Np.mean. rewrite sum_total. field.
  intro H. rewrite H in HN. discriminate.
Qed.

Lemma total_map_ext (f g : Q -> Q) (a : list Q) :
  (forall x, f x == g x) -> total (map f a) == total (map g a).
Proof.
  intros H. induction a as [| x r IH]; simpl; [reflexivity |].
  rewrite IH, H. reflexivity.
Qed.

Lemma total_nonneg (a : list Q) : Forall (fun x => 0 <= x) a -> 0 <= total a.
Proof.
  induction 1 as [| x r Hx _ IH]; simpl; [apply Qle_refl | lra].
Qed.

Lemma sq_abs (y : Q) : Qabs y * Qabs y == y * y.
Proof.
  destruct (Qlt_le_dec y 0) as [H | H].
  - rewrite Qabs_neg by lra. ring.
  - rewrite Qabs_pos by exact H. reflexivity.
Qed.

(** The population variance: the squared deviations are averaged over the
    number of values. *)
Lemma var_total (a : list Q) :
  a <> [] ->
  Np.var a * inject_Z (Z.of_nat (length a))
  == total (map (fun x => (x - Np.mean a) * (x - Np.mean a)) a).
Proof.
  intros Ha. unfold Np.var.
  set (m := Np.mean a).
  assert (Hm : map (fun x => Qabs (x - m) * Qabs (x - m)) a <> [])
    by (destruct a; [congruence | discriminate]).
  pose proof (mean_total Hm) as E. rewrite length_map in E. rewrite E.
  apply total_map_ext. intros x. apply sq_abs.
Qed.

Lemma var_nonneg (a : list Q) : a <> [] -> 0 <= Np.var a.
Proof.
  intros Ha. pose proof (length_pos Ha) as HN. pose proof (var_total Ha) as E.
  assert (T : 0 <= total (map (fun x => (x - Np.mean a) * (x - Np.mean a)) a)).
  { apply total_nonneg, Forall_forall. intros y Hy.
    apply in_map_iff in Hy. destruct Hy as (x & <- & _).
    destruct (Qlt_le_dec (x - Np.mean a) 0) as [H | H].
    - setoid_replace ((x - Np.mean a) * (x - Np.mean a))
        with ((- (x - Np.mean a)) * (- (x - Np.mean a))) by ring.
      apply Qmult_le_0_compat; lra.
    - apply Qmult_le_0_compat; exact H. }
  rewrite <- E in T.
  apply Qnot_lt_le. intro C.
  assert (D : Np.var a * inject_Z (Z.of_nat (length a))
              < 0 * inject_Z (Z.of_nat (length a)))
    by (apply Qmult_lt_r; assumption).
  lra.
Qed.

Lemma std_sqr (a : list Q) :
  a <> [] ->
  (0 <= surd_val (Np.std a))%R /\
  (surd_val (Np.std a) * surd_val (Np.std a))%R = Q2R (Np.var a).
Proof.
  intros Ha. simpl. split.
  - apply sqrt_pos.
  - apply sqrt_sqrt. replace 0%R with (Q2R 0) by (unfold Q2R; simpl; field).
    apply Qle_Rle, var_nonneg, Ha.
Qed.

(** ** Ordering and the median *)

Lemma insert_perm (x : Q) (l : list Q) : Permutation (x :: l) (Np.insert x l).
Proof.
  induction l as [| y r IH]; simpl; [reflexivity |].
  destruct (Qle_bool x y); [reflexivity |].
  rewrite perm_swap. apply perm_skip, IH.
Qed.

Lemma insert_hdrel (x y : Q) (l : list Q) :
  y <= x -> HdRel Qle y l -> HdRel Qle y (Np.insert x l).
Proof.
  intros Hxy H. destruct l as [| z r]; simpl.
  - constructor. exact Hxy.
  - destruct (Qle_bool x z); constructor; [exact Hxy |].
    inversion H; assumption.
Qed.

Lemma insert_sorted (x : Q) (l : list Q) :
  Sorted Qle l -> Sorted Qle (Np.insert x l).
Proof.
  induction 1 as [| y r Hr IH Hy]; simpl.
  - repeat constructor.
  - destruct (Qle_bool x y) eqn:E.
    + apply Qle_bool_iff in E. repeat constructor; assumption.
    + assert (y <= x).
      { apply Qlt_le_weak, Qnot_le_lt. intro C.
        apply Qle_bool_iff in C. congruence. }
      constructor; [exact IH | apply insert_hdrel; assumption].
Qed.

Lemma sort_perm (a : list Q) : Permutation a (Np.sort a).
Proof.
  induction a as [| x r IH]; simpl; [reflexivity |].
  rewrite <- insert_perm. apply perm_skip, IH.
Qed.

Lemma sort_sorted (a : list Q) : Sorted Qle (Np.sort a).
Proof.
  induction a as [| x r IH]; simpl; [constructor | apply insert_sorted, IH].
Qed.

Lemma skipn_nth (l : list Q) : forall k,
  (k < length l)%nat -> skipn k l = nth k l 0 :: skipn (S k) l.
Proof.
  induction l as [| x r IH]; intros k Hk; simpl in Hk; [lia |].
  destruct k as [| k]; [reflexivity |].
  simpl skipn at 1. simpl nth. rewrite IH by lia. reflexivity.
Qed.

Lemma median_middle (a : list Q) :
  a <> [] -> Np.median a == middle_value (Np.sort a).
Proof.
  intros Ha.
  assert (L : length (Np.sort a) = length a)
    by (symmetry; apply Permutation_length, sort_perm).
  assert (P : (1 <= length a)%nat) by (destruct a; [congruence | simpl; lia]).
  unfold Np.median, middle_value. rewrite L.
  set (sz := length a) in *. set (s := Np.sort a) in *.
  pose proof (Nat.div_mod_eq sz 2) as D.
  destruct (Nat.even sz) eqn:E.
  - apply Nat.even_spec in E. destruct E as [k Ek].
    assert (K : (sz / 2 = k)%nat) by (rewrite Ek, Nat.mul_comm; apply Nat.div_mul; lia).
    rewrite K.
    rewrite (@skipn_nth s (k - 1)) by lia.
    replace (S (k - 1)) with k by lia.
    rewrite (@skipn_nth s k) by lia.
    simpl firstn. unfold Np.mean, Np.sum. simpl. field.
  - assert (O : Nat.odd sz = true) by (rewrite <- Nat.negb_even, E; reflexivity).
    apply Nat.odd_spec in O. destruct O as [k Ek].
    assert (K : (sz / 2 < sz)%nat) by (apply Nat.div_lt; lia).
    rewrite (@skipn_nth s (sz / 2)) by lia.
    simpl firstn. unfold Np.mean, Np.sum. simpl. field.
Qed.

(** ** The document the writer produces *)

Section Document.

Local Open Scope string_scope.

Variable env : Writer.io_env.
Variables (bin_edges : list Q) (hist_counts : list nat) (stats : statistics).
Variables (var_name : string) (var_info : option (list (string * string))).
Variable now : string.

Lemma bind_cong {A B : Type} (m : Writer.IO A) (k k' : A -> Writer.IO B) h :
  (forall a h', k a h' = k' a h') -> Writer.io_bind m k h = Writer.io_bind m k' h.
Proof.
  intros H. unfold Writer.io_bind. destruct (m h) as [[a | e] h']; auto.
Qed.

Lemma bind_assoc {A B C : Type} (m : Writer.IO A) (k1 : A -> Writer.IO B)
    (k2 : B -> Writer.IO C) h :
  Writer.io_bind (Writer.io_bind m k1) k2 h
  = Writer.io_bind m (fun a => Writer.io_bind (k1 a) k2) h.
Proof.
  unfold Writer.io_bind. destruct (m h) as [[a | e] h']; reflexivity.
Qed.

Lemma bind_cong2 {A B : Type} (m m' : Writer.IO A) (k k' : A -> Writer.IO B) h :
  m h = m' h -> (forall a h', k a h' = k' a h') ->
  Writer.io_bind m k h = Writer.io_bind m' k' h.
Proof.
  intros Hm H. unfold Writer.io_bind. rewrite Hm.
  destruct (m' h) as [[a | e] h']; auto.
Qed.

Lemma emit_cons (x : string) (r : list string) h :
  emit env (x :: r) h = Writer.io_bind (Writer.fwrite env x) (fun _ => emit env r) h.
Proof. reflexivity. Qed.

Lemma emit_app (a b : list string) h :
  emit env (a ++ b)%list h = Writer.io_bind (emit env a) (fun _ => emit env b) h.
Proof.
  revert h. induction a as [| x r IH]; intros h.
  - reflexivity.
  - simpl app. rewrite emit_cons.
    change (emit env (x :: r))
      with (Writer.io_bind (Writer.fwrite env x) (fun _ => emit env r)).
    rewrite bind_assoc. apply bind_cong. intros _ h'. apply IH.
Qed.

Lemma for_each_map {A : Type} (g : A -> string) (items : list A) h :
  Writer.for_each items (fun x => Writer.fwrite env (g x)) h = emit env (map g items) h.
Proof.
  revert h. induction items as [| x r IH]; intros h; simpl; [reflexivity |].
  apply bind_cong. intros _ h'. apply IH.
Qed.

Lemma append_assoc (a b c : string) : (a ++ b) ++ c = a ++ (b ++ c).
Proof. induction a as [| x a IH]; simpl; [reflexivity | rewrite IH; reflexivity]. Qed.

Lemma append_nil_r (a : string) : a ++ "" = a.
Proof. induction a as [| x a IH]; simpl; [reflexivity | rewrite IH; reflexivity]. Qed.

(** When no write call fails, all the texts are in the file. *)
Lemma emit_no_fault (chunks : list string) : forall h,
  Writer.fault env = None ->
  emit env chunks h
  = (Ok tt, {| Writer.content := Writer.content h ++ join chunks;
               Writer.calls := Writer.calls h + length chunks |}).
Proof.
  induction chunks as [| x r IH]; intros h Hf.
  - simpl. rewrite append_nil_r, Nat.add_0_r. destruct h; reflexivity.
  - rewrite emit_cons. unfold Writer.io_bind, Writer.fwrite. rewrite Hf.
    rewrite IH by exact Hf. simpl. rewrite append_assoc.
    do 3 f_equal. lia.
Qed.

(** A fault beyond the last call is not met. *)
Lemma emit_late_fault (chunks : list string) (k : nat) : forall h,
  Writer.fault env = Some k ->
  (k < Writer.calls h \/ Writer.calls h + length chunks <= k)%nat ->
  emit env chunks h
  = (Ok tt, {| Writer.content := Writer.content h ++ join chunks;
               Writer.calls := Writer.calls h + length chunks |}).
Proof.
  induction chunks as [| x r IH]; intros h Hf Hk.
  - simpl. rewrite append_nil_r, Nat.add_0_r. destruct h; reflexivity.
  - rewrite emit_cons. unfold Writer.io_bind, Writer.fwrite. rewrite Hf.
    simpl length in Hk.
    destruct (Nat.eqb_spec k (Writer.calls h)) as [C | _]; [lia |].
    rewrite IH by (try exact Hf; simpl; lia). simpl. rewrite append_assoc.
    do 3 f_equal. lia.
Qed.

(** When write call [k] fails, the texts of the calls before it are in the
    file and the rest is not. *)
Lemma emit_fault (chunks : list string) (k : nat) : forall h,
  Writer.fault env = Some k ->
  (Writer.calls h <= k < Writer.calls h + length chunks)%nat ->
  emit env chunks h
  = (Raise OSError,
     {| Writer.content := Writer.content h ++ join (firstn (k - Writer.calls h) chunks);
        Writer.calls := k |}).
Proof.
  induction chunks as [| x r IH]; intros h Hf Hk.
  - simpl in Hk. lia.
  - rewrite emit_cons. unfold Writer.io_bind, Writer.fwrite. rewrite Hf.
    simpl length in Hk.
    destruct (Nat.eqb_spec k (Writer.calls h)) as [E | NE].
    + rewrite E, Nat.sub_diag. simpl. rewrite append_nil_r.
      destruct h; reflexivity.
    + rewrite IH by (try exact Hf; simpl; lia). simpl Writer.calls.
      simpl Writer.content.
      replace (k - Writer.calls h)%nat with (S (k - S (Writer.calls h))) by lia.
      simpl. rewrite append_assoc. reflexivity.
Qed.

Lemma getitem_nth {A : Type} (l : list A) (d : A) (i : nat) :
  (i < length l)%nat -> Np.getitem l (Z.of_nat i) = Ok (nth i l d).
Proof.
  intros Hi. unfold Np.getitem.
  destruct (Z.ltb_spec (Z.of_nat i) 0) as [C | _]; [lia |].
  destruct (Z.ltb_spec (Z.of_nat i) 0) as [C | _]; [lia |].
  rewrite Nat2Z.id, (nth_error_nth' _ d) by exact Hi. reflexivity.
Qed.

Hypothesis Hshape : (length hist_counts < length bin_edges)%nat.

Lemma write_bin_line (i : nat) h :
  (i < length hist_counts)%nat ->
  Writer.write_bin env bin_edges hist_counts i h
  = Writer.fwrite env (data_line bin_edges hist_counts i) h.
Proof.
  intros Hi. unfold Writer.write_bin, Writer.io_bind, Writer.lift.
  rewrite (getitem_nth bin_edges 0%Q) by lia.
  replace (Z.of_nat i + 1)%Z with (Z.of_nat (S i)) by lia.
  rewrite (getitem_nth bin_edges 0%Q) by lia.
  rewrite (getitem_nth hist_counts 0%nat) by lia.
  reflexivity.
Qed.

Lemma loop_emit : forall (m s : nat) h,
  (s + m <= length hist_counts)%nat ->
  Writer.for_each (seq s m) (Writer.write_bin env bin_edges hist_counts) h
  = emit env (map (data_line bin_edges hist_counts) (seq s m)) h.
Proof.
  induction m as [| m IH]; intros s h Hs; simpl; [reflexivity |].
  change (emit env (data_line bin_edges hist_counts s :: ?l))
    with (Writer.io_bind (Writer.fwrite env (data_line bin_edges hist_counts s))
            (fun _ => emit env l)).
  unfold Writer.io_bind. rewrite write_bin_line by lia.
  destruct (Writer.fwrite env (data_line bin_edges hist_counts s) h)
    as [[[] | e] h']; [| reflexivity].
  apply IH. lia.
Qed.

(** With enough edges the body of the writer is the sequence of the
    document's write calls. *)
Lemma info_emit h :
  match var_info with
  | Some ((_ :: _) as items) =>
    Writer.io_bind (Writer.fwrite env ("# Variable info:" ++ Fmt.nl))
      (fun _ => Writer.for_each items
         (fun kv => Writer.fwrite env ("#   " ++ fst kv ++ ": " ++ snd kv ++ Fmt.nl)))
  | _ => Writer.ret tt
  end h = emit env (info_chunks var_info) h.
Proof.
  unfold info_chunks. destruct var_info as [[| kv items] |]; try reflexivity.
  rewrite emit_cons. apply bind_cong. intros _ h'.
  apply (for_each_map (fun kv0 => "#   " ++ fst kv0 ++ ": " ++ snd kv0 ++ Fmt.nl)).
Qed.

Lemma write_body_emit h :
  Writer.write_body env bin_edges hist_counts stats var_name var_info now h
  = emit env (document_chunks bin_edges hist_counts stats var_name var_info now) h.
Proof.
  unfold Writer.write_body, document_chunks, header_chunks.
  simpl app.
  rewrite emit_cons. apply bind_cong. intros _ h1.
  rewrite emit_cons. apply bind_cong. intros _ h2.
  rewrite <- app_assoc, emit_app.
  apply bind_cong2; [apply info_emit |]. intros _ h3.
  unfold stats_chunks. simpl app.
  repeat (rewrite emit_cons; apply bind_cong; intros _ ?).
  apply loop_emit. lia.
Qed.

End Document.

(** ** The shape of a formatted number *)

Lemma digit_char_is_digit (d : Z) :
  (0 <= d < 10)%Z -> is_digit (Fmt.digit_char d) = true.
Proof.
  intros Hd. unfold is_digit, Fmt.digit_char.
  rewrite N_ascii_embedding by lia.
  apply andb_true_iff. split; apply N.leb_le; lia.
Qed.

Lemma digits_aux_digits (fuel : nat) : forall z acc,
  all_digits acc = true -> all_digits (Fmt.digits_aux fuel z acc) = true.
Proof.
  induction fuel as [| f IH]; intros z acc Hacc; simpl; [exact Hacc |].
  assert (H : all_digits (String (Fmt.digit_char (z mod 10)) acc) = true).
  { unfold all_digits in *. simpl. rewrite Hacc, digit_char_is_digit; [reflexivity |].
    apply Z.mod_pos_bound. lia. }
  destruct (Z.eqb (z / 10) 0); [exact H | apply IH, H].
Qed.

Lemma digits_aux_nonempty (fuel : nat) : forall z acc,
  acc <> ""%string -> Fmt.digits_aux fuel z acc <> ""%string.
Proof.
  induction fuel as [| f IH]; intros z acc Hacc; simpl; [exact Hacc |].
  destruct (Z.eqb (z / 10) 0); [discriminate | apply IH; discriminate].
Qed.

Lemma str_nonneg_plain (z : Z) : plain_integer (Fmt.str_nonneg z).
Proof.
  unfold Fmt.str_nonneg. split.
  - simpl. destruct (Z.eqb (z / 10) 0); [discriminate |].
    apply digits_aux_nonempty. discriminate.
  - apply digits_aux_digits. reflexivity.
Qed.

Lemma str_int_plain (c : nat) : plain_integer (Fmt.str_int (Z.of_nat c)).
Proof.
  unfold Fmt.str_int.
  destruct (Z.ltb_spec (Z.of_nat c) 0) as [C | _]; [lia |].
  apply str_nonneg_plain.
Qed.

Lemma pad6_shape (z : Z) :
  String.length (Fmt.pad6 z) = 6%nat /\ all_digits (Fmt.pad6 z) = true.
Proof.
  unfold Fmt.pad6, all_digits. split; [reflexivity |].
  rewrite list_ascii_of_string_of_list_ascii. simpl.
  rewrite !digit_char_is_digit by (apply Z.mod_pos_bound; lia).
  reflexivity.
Qed.

Lemma fixed6_shape (negative : bool) (r : Z) : six_decimals (Fmt.fixed6 negative r).
Proof.
  unfold Fmt.fixed6.
  exists (if negative then "-" else "")%string,
         (Fmt.str_nonneg (r / 1000000)), (Fmt.pad6 (r mod 1000000)).
  destruct (str_nonneg_plain (r / 1000000)) as [H1 H2].
  destruct (pad6_shape (r mod 1000000)) as [H3 H4].
  repeat split; try assumption.
  destruct negative; auto.
Qed.

Lemma format_6f_shape (q : Q) : six_decimals (Fmt.format_6f q).
Proof. apply fixed6_shape. Qed.

(** ** Bins as intervals of the returned edges *)

Lemma finite_nonempty (data : list sample) :
  existsb isfinite data = true -> clean_data data <> [].
Proof.
  induction data as [| s r IH]; simpl; [discriminate |].
  destruct s; simpl; try exact IH. discriminate.
Qed.

Lemma length_nonempty {A : Type} (l : list A) : (0 < length l)%nat -> l <> [].
Proof. destruct l; simpl; [lia | discriminate]. Qed.

Lemma negb_Qle_bool (a b : Q) : negb (Qle_bool a b) = true <-> b < a.
Proof.
  rewrite negb_true_iff. split; intros H.
  - apply Qnot_le_lt. intro C. apply Qle_bool_iff in C. congruence.
  - apply not_true_is_false. intro C. apply Qle_bool_iff in C.
    apply (Qlt_not_le _ _ H C).
Qed.

Section Intervals.

Variables lo hi : Q.
Variable n : nat.
Hypothesis Hlt : lo < hi.
Hypothesis Hn : (1 <= n)%nat.

Lemma in_interval_in_bin (i : nat) (x : Q) :
  (i < n)%nat ->
  in_interval (Np.linspace lo hi (n + 1)) n i x = true <-> in_bin lo hi n i x.
Proof.
  intros Hi. unfold in_interval, in_bin.
  pose proof (@linspace_nth lo hi n Hn i) as E1.
  pose proof (@linspace_nth lo hi n Hn (S i)) as E2.
  rewrite andb_true_iff, Qle_bool_iff, E1 by lia.
  destruct (Nat.eqb i (n - 1)).
  - rewrite Qle_bool_iff, E2 by lia. reflexivity.
  - rewrite negb_Qle_bool, E2 by lia. reflexivity.
Qed.

Lemma in_interval_bin_of (i : nat) (x : Q) :
  (i < n)%nat -> lo <= x -> x <= hi ->
  Z.eqb (Z.of_nat i) (bin_of lo hi n x)
  = in_interval (Np.linspace lo hi (n + 1)) n i x.
Proof.
  intros Hi H1 H2.
  pose proof (bin_of_range Hlt Hn H1 H2) as R.
  apply eq_true_iff_eq. rewrite (in_interval_in_bin _ Hi), Z.eqb_eq. split.
  - intros E. replace i with (Z.to_nat (bin_of lo hi n x)) by lia.
    apply bin_of_in_bin; assumption.
  - intros H. symmetry. apply in_bin_bin_of; assumption.
Qed.

End Intervals.

(** ** Properties of the histogram engine *)




Lemma spans_linspace (lo hi : Q) (n : nat) :
  lo < hi -> (1 <= n)%nat -> spans (Np.linspace lo hi (n + 1)) lo hi n.
Proof.
  intros Hlt Hn. unfold spans.
  split; [apply linspace_length; assumption |].
  split; [rewrite (linspace_nth lo hi Hn) by lia; apply equally_spaced_first |].
  split; [rewrite (linspace_nth lo hi Hn) by lia;
          apply equally_spaced_last; assumption |].
  split; [intros i Hi; apply linspace_nth; assumption |].
  intros i Hi. rewrite !(linspace_nth lo hi Hn) by lia.
  apply Qlt_le_weak, equally_spaced_step; assumption.
Qed.







(** C5. An input with no finite value, all NaN or all infinite for
    instance, gives the EMPTY outcome, whatever the bin count: neither a
    histogram nor statistics. *)
Theorem no_finite_value_empty (data : list sample) (bins : Z) :
  forallb (fun s => negb (isfinite s)) data = true ->
  compute_histogram data bins = EMPTY.
Proof.
  intros H.
  assert (E : clean_data data = []).
  { induction data as [| s r IH]; [reflexivity |].
    simpl in H. apply andb_true_iff in H. destruct H as [Hs Hr].
    destruct s; simpl in *; try discriminate; apply IH, Hr. }
  unfold compute_histogram. rewrite E. reflexivity.
Qed.

Lemma no_finite_value_empty_witness :
  forallb (fun s => negb (isfinite s)) [NaN; PosInf; NegInf; NaN] = true /\
  compute_histogram [NaN; PosInf; NegInf; NaN] 50 = EMPTY.
Proof.
  split; [reflexivity |].
  apply (@no_finite_value_empty [NaN; PosInf; NegInf; NaN] 50). reflexivity.
Defined.

(** C6, refuted as worded: an all-NaN input with [bins = 0] gives EMPTY. *)
Lemma nonpositive_bins_refused_fails :
  ~ nonpositive_bins_refused [NaN; NaN] 0.
Proof.
  intros H. specialize (H ltac:(lia)). vm_compute in H. discriminate.
Qed.

(** C6, amended.  When the input holds at least one finite value, a bin
    count of zero or less makes [compute_histogram] raise the [ValueError]
    of [np.histogram]. *)
Theorem nonpositive_bins_raise (data : list sample) (bins : Z) :
  existsb isfinite data = true -> (bins <= 0)%Z ->
  compute_histogram data bins = Raised ValueError.
Proof.
  intros Hf Hb. pose proof (finite_nonempty _ Hf) as Ha.
  unfold compute_histogram.
  destruct (Nat.eqb_spec (length (clean_data data)) 0) as [C | _].
  { apply length_zero_iff_nil in C. contradiction. }
  unfold Np.histogram.
  destruct (Z.ltb_spec bins 1) as [_ | C]; [reflexivity | lia].
Qed.

Lemma nonpositive_bins_raise_witness :
  existsb isfinite [Fin 1; NaN; Fin 2] = true /\ (-1 <= 0)%Z /\
  compute_histogram [Fin 1; NaN; Fin 2] (-1) = Raised ValueError.
Proof.
  split; [reflexivity |]. split; [lia |].
  apply (@nonpositive_bins_raise [Fin 1; NaN; Fin 2] (-1)); [reflexivity | lia].
Defined.

(** C7, refuted as worded: the first edge is 4.5. *)
Lemma edges_collapse_to_value_fails : ~ edges_collapse_to_value.
Proof.
  intros (e & c & s & H & He & _).
  vm_compute in H. injection H as <- <- <-.
  specialize (He _ (or_introl eq_refl)). vm_compute in He. discriminate.
Qed.

(** C7, amended.  For [[5.0, 5.0, 5.0]] and three bins the edges are the four
    equally spaced points from 4.5 to 5.5, the three values are counted in
    the middle bin, and the counts add up to 3. *)
Theorem single_value_histogram :
  exists bin_edges hist_counts stats,
    compute_histogram [Fin 5; Fin 5; Fin 5] 3
      = Histogram bin_edges hist_counts stats /\
    map Qred bin_edges = [9 # 2; 29 # 6; 31 # 6; 11 # 2] /\
    hist_counts = [0; 3; 0]%nat /\
    list_sum hist_counts = 3%nat.
Proof.
  do 3 eexists. split; [vm_compute; reflexivity |].
  repeat split; reflexivity.
Qed.

(** C10. With no finite value in the input the outcome is EMPTY for every
    bin count, zero and negative ones included; so an exception for the bin
    count is only raised when some value is finite. *)
Theorem empty_precedes_bin_check (data : list sample) (bins : Z) :
  clean_data data = [] ->
  compute_histogram data bins = EMPTY /\
  (forall e, compute_histogram data bins <> Raised e).
Proof.
  intros E. unfold compute_histogram. rewrite E. simpl.
  split; [reflexivity | discriminate].
Qed.

Lemma empty_precedes_bin_check_witness :
  clean_data [NaN; NegInf] = [] /\
  compute_histogram [NaN; NegInf] (-1) = EMPTY /\
  (forall e, compute_histogram [NaN; NegInf] (-1) <> Raised e).
Proof.
  split; [reflexivity |].
  apply (@empty_precedes_bin_check [NaN; NegInf] (-1)). reflexivity.
Defined.

(** ** Properties of the report writer *)

Lemma join_app (a b : list string) :
  join (a ++ b) = (join a ++ join b)%string.
Proof.
  induction a as [| x r IH]; simpl; [reflexivity |].
  rewrite IH, append_assoc. reflexivity.
Qed.

Lemma write_complete (env : Writer.io_env) (dest : option string)
    (bin_edges : list Q) (hist_counts : list nat) (stats : statistics)
    (var_name : string) (var_info : option (list (string * string)))
    (now : string) :
  (length hist_counts < length bin_edges)%nat ->
  Writer.can_open env = true ->
  no_write_fails env
    (length (document_chunks bin_edges hist_counts stats var_name var_info now)) ->
  Writer.write_histogram_to_text env dest bin_edges hist_counts stats
    var_name var_info now
  = (Ok tt,
     Some (join (document_chunks bin_edges hist_counts stats var_name var_info now))).
Proof.
  intros Hshape Hopen Hf. unfold Writer.write_histogram_to_text.
  rewrite Hopen, write_body_emit by exact Hshape.
  unfold no_write_fails in Hf.
  destruct (Writer.fault env) as [k |] eqn:F.
  - rewrite (@emit_late_fault env _ k _ F) by (right; exact Hf). reflexivity.
  - rewrite emit_no_fault by exact F. reflexivity.
Qed.

Lemma write_interrupted (env : Writer.io_env) (dest : option string)
    (bin_edges : list Q) (hist_counts : list nat) (stats : statistics)
    (var_name : string) (var_info : option (list (string * string)))
    (now : string) (k : nat) :
  (length hist_counts < length bin_edges)%nat ->
  Writer.can_open env = true ->
  Writer.fault env = Some k ->
  (k < length (document_chunks bin_edges hist_counts stats var_name var_info now))%nat ->
  Writer.write_histogram_to_text env dest bin_edges hist_counts stats
    var_name var_info now
  = (Raise OSError,
     Some (join (firstn k
       (document_chunks bin_edges hist_counts stats var_name var_info now)))).
Proof.
  intros Hshape Hopen F Hk. unfold Writer.write_histogram_to_text.
  rewrite Hopen, write_body_emit by exact Hshape.
  rewrite (@emit_fault env _ k _ F) by (split; [apply Nat.le_0_l | exact Hk]).
  simpl. rewrite Nat.sub_0_r. reflexivity.
Qed.






(** ** Worked examples *)

(** The example of the specification: [[1, 2, 3, 4, NaN, inf]] with two
    bins gives edges 1.0, 2.5, 4.0, counts 2 and 2, and the statistics
    count 4, mean 2.5, std 1.118034, min 1, max 4, median 2.5. *)
Example spec_example :
  exists bin_edges stats,
    compute_histogram [Fin 1; Fin 2; Fin 3; Fin 4; NaN; PosInf] 2
      = Histogram bin_edges sample_counts stats /\
    map Qred bin_edges = sample_edges /\
    count stats = 4%nat /\ Qred (mean stats) = 5 # 2 /\
    Fmt.format_6f_surd (std stats) = "1.118034"%string /\
    Qred (min stats) = 1 /\ Qred (max stats) = 4 /\
    Qred (median stats) = 5 # 2.
Proof.
  do 2 eexists. split; [vm_compute; reflexivity |].
  repeat split; reflexivity.
Qed.

(** The file written for that histogram. *)
Example sample_document :
  Writer.write_histogram_to_text fair_weather None sample_edges sample_counts
    sample_stats "sst" (Some [("units", "K")]%string) "2024-01-01 00:00:00"
  = (Ok tt, Some
"# Histogram for variable: sst
# Generated on: 2024-01-01 00:00:00
# Variable info:
#   units: K
#
# Statistics:
#   Count: 4
#   Mean: 2.500000
#   Std Dev: 1.118034
#   Min: 1.000000
#   Max: 4.000000
#   Median: 2.500000
#
# Format: bin_center, count, bin_left_edge, bin_right_edge
#
1.750000, 2, 1.000000, 2.500000
3.250000, 2, 2.500000, 4.000000
"%string).
Proof. vm_compute. reflexivity. Qed.

(** The same call when the second data line cannot be written: the file is
    left with the header and the first data line. *)
Example interrupted_document :
  Writer.write_histogram_to_text disk_fills_up None sample_edges sample_counts
    sample_stats "sst" None "2024-01-01 00:00:00"
  = (Raise OSError, Some
"# Histogram for variable: sst
# Generated on: 2024-01-01 00:00:00
#
# Statistics:
#   Count: 4
#   Mean: 2.500000
#   Std Dev: 1.118034
#   Min: 1.000000
#   Max: 4.000000
#   Median: 2.500000
#
# Format: bin_center, count, bin_left_edge, bin_right_edge
#
1.750000, 2, 1.000000, 2.500000
"%string).
Proof. vm_compute. reflexivity. Qed.

(** More edges are needed than counts: with two edges for two counts the
    second pass of the loop raises [IndexError] after the first line is
    written. *)
Example short_edges :
  fst (Writer.write_histogram_to_text fair_weather None [0; 1] [1; 2]%nat
         sample_stats "sst" None "2024-01-01 00:00:00")
  = Raise IndexError.
Proof. vm_compute. reflexivity. Qed.

(** * Further properties *)

(** ** The histogram engine: edges *)

Lemma linspace_ends (lo hi : Q) (n : nat) :
  lo < hi -> (1 <= n)%nat ->
  nth 0 (Np.linspace lo hi (n + 1)) 0 == lo /\
  nth n (Np.linspace lo hi (n + 1)) 0 == hi.
Proof.
  intros Hlt Hn. split.
  - rewrite (linspace_nth lo hi Hn) by lia. apply equally_spaced_first.
  - rewrite (linspace_nth lo hi Hn) by lia.
    apply equally_spaced_last; assumption.
Qed.



Lemma equally_spaced_width (lo hi : Q) (n i : nat) :
  (1 <= n)%nat ->
  equally_spaced lo hi n (S i) - equally_spaced lo hi n i
  == (hi - lo) / inject_Z (Z.of_nat n).
Proof.
  intros Hn. pose proof (inject_nat_pos Hn) as HN.
  unfold equally_spaced. rewrite Nat2Z.inj_succ. unfold Z.succ.
  rewrite inject_Z_plus. change (inject_Z 1) with 1.
  field. intro C. rewrite C in HN. discriminate.
Qed.



(** ** The histogram engine: statistics *)

Lemma total_bounds (m M : Q) (a : list Q) :
  (forall y, In y a -> m <= y /\ y <= M) ->
  m * inject_Z (Z.of_nat (length a)) <= total a /\
  total a <= M * inject_Z (Z.of_nat (length a)).
Proof.
  induction a as [| x r IH]; intros H.
  - simpl. change (inject_Z 0) with 0. rewrite !Qmult_0_r.
    split; apply Qle_refl.
  - destruct IH as [L U]; [intros y Hy; apply H; right; exact Hy |].
    destruct (H x (or_introl eq_refl)) as [Lx Ux].
    simpl length. rewrite Nat2Z.inj_succ. unfold Z.succ.
    rewrite inject_Z_plus. change (inject_Z 1) with 1. simpl total.
    set (N := inject_Z (Z.of_nat (length r))) in *.
    setoid_replace (m * (N + 1)) with (m * N + m) by ring.
    setoid_replace (M * (N + 1)) with (M * N + M) by ring.
    split; lra.
Qed.

Lemma mean_bounds (m M : Q) (a : list Q) :
  a <> [] -> (forall y, In y a -> m <= y /\ y <= M) ->
  m <= Np.mean a /\ Np.mean a <= M.
Proof.
  intros Ha H. pose proof (length_pos Ha) as HN.
  destruct (total_bounds a H) as [L U]. rewrite <- (mean_total Ha) in L, U.
  split.
  - apply (Qmult_le_r _ _ _ HN). exact L.
  - apply (Qmult_le_r _ _ _ HN). exact U.
Qed.

Lemma nth_bounds (m M : Q) (a : list Q) (i : nat) :
  (forall y, In y a -> m <= y /\ y <= M) -> (i < length a)%nat ->
  m <= nth i a 0 /\ nth i a 0 <= M.
Proof. intros H Hi. apply H, nth_In, Hi. Qed.

Lemma median_bounds (m M : Q) (a : list Q) :
  a <> [] -> (forall y, In y a -> m <= y /\ y <= M) ->
  m <= Np.median a /\ Np.median a <= M.
Proof.
  intros Ha H. rewrite (median_middle Ha).
  assert (Hs : forall y, In y (Np.sort a) -> m <= y /\ y <= M).
  { intros y Hy. apply H. eapply Permutation_in; [| exact Hy].
    symmetry. apply sort_perm. }
  assert (L : length (Np.sort a) = length a)
    by (symmetry; apply Permutation_length, sort_perm).
  assert (P : (1 <= length a)%nat) by (destruct a; [congruence | simpl; lia]).
  unfold middle_value. rewrite L.
  assert (D : (length a / 2 < length a)%nat) by (apply Nat.div_lt; lia).
  destruct (Nat.even (length a)).
  - destruct (@nth_bounds m M (Np.sort a) (length a / 2 - 1) Hs) as [L1 U1];
      [lia |].
    destruct (@nth_bounds m M (Np.sort a) (length a / 2) Hs) as [L2 U2];
      [lia |].
    set (u := nth (length a / 2 - 1) (Np.sort a) 0) in *.
    set (v := nth (length a / 2) (Np.sort a) 0) in *.
    split.
    + apply Qle_shift_div_l; lra.
    + apply Qle_shift_div_r; lra.
  - apply nth_bounds; [exact Hs | lia].
Qed.



Lemma total_zero (l : list Q) : (forall y, In y l -> y == 0) -> total l == 0.
Proof.
  induction l as [| x r IH]; intros H; simpl; [reflexivity |].
  rewrite (H x (or_introl eq_refl)), IH; [reflexivity |].
  intros y Hy. apply H. right. exact Hy.
Qed.

Lemma total_nonneg_zero (l : list Q) :
  Forall (fun x => 0 <= x) l -> total l == 0 -> forall y, In y l -> y == 0.
Proof.
  induction 1 as [| x r Hx Hr IH]; intros T y Hy; [destruct Hy |].
  simpl in T. pose proof (total_nonneg Hr) as Tr.
  destruct Hy as [<- | Hy].
  - lra.
  - apply IH; [lra | exact Hy].
Qed.

Lemma square_nonneg (y : Q) : 0 <= y * y.
Proof.
  destruct (Qlt_le_dec y 0) as [H | H].
  - setoid_replace (y * y) with ((- y) * (- y)) by ring.
    apply Qmult_le_0_compat; lra.
  - apply Qmult_le_0_compat; exact H.
Qed.

(** The population variance is zero exactly when all the values are equal. *)
Lemma var_zero_iff (a : list Q) (mn mx : Q) :
  a <> [] -> is_minimum mn a -> is_maximum mx a ->
  (Np.var a == 0 <-> mn == mx).
Proof.
  intros Ha [Imn Lmn] [Imx Lmx].
  pose proof (length_pos Ha) as HN. pose proof (var_total Ha) as V.
  set (m := Np.mean a) in *.
  split; intros H.
  - assert (T : total (map (fun x => (x - m) * (x - m)) a) == 0)
      by (rewrite <- V, H; ring).
    assert (Z : forall x, In x a -> x == m).
    { intros x Hx.
      assert (S : (x - m) * (x - m) == 0).
      { apply (total_nonneg_zero (l := map (fun x => (x - m) * (x - m)) a)).
        - apply Forall_forall. intros y Hy. apply in_map_iff in Hy.
          destruct Hy as (z & <- & _). apply square_nonneg.
        - exact T.
        - apply in_map_iff. exists x. split; [reflexivity | exact Hx]. }
      apply Qmult_integral in S. destruct S; lra. }
    rewrite (Z mn Imn), (Z mx Imx). reflexivity.
  - assert (B : forall y, In y a -> mn <= y /\ y <= mn).
    { intros y Hy. pose proof (Lmn y Hy). pose proof (Lmx y Hy). split; lra. }
    destruct (mean_bounds Ha B) as [M1 M2]. fold m in M1, M2.
    assert (T : total (map (fun x => (x - m) * (x - m)) a) == 0).
    { apply total_zero. intros y Hy. apply in_map_iff in Hy.
      destruct Hy as (x & <- & Hx). destruct (B x Hx).
      assert (D : x - m == 0) by lra. rewrite D. ring. }
    rewrite T in V. apply Qmult_integral in V. destruct V as [V | V].
    + exact V.
    + rewrite V in HN. discriminate.
Qed.

Lemma Q2R_zero : Q2R 0 = 0%R.
Proof. unfold Q2R. simpl. field. Qed.

Lemma surd_zero_iff (v : Q) :
  0 <= v -> (surd_val (Np.Sqrt v) = 0%R <-> v == 0).
Proof.
  intros Hv. simpl. split; intros H.
  - apply eqR_Qeq. rewrite Q2R_zero. apply sqrt_eq_0; [| exact H].
    rewrite <- Q2R_zero. apply Qle_Rle, Hv.
  - rewrite (Qeq_eqR _ _ H), Q2R_zero. apply sqrt_0.
Qed.



(** ** The histogram engine: where the values are counted *)

Lemma count_eq_constant {A : Type} (g : A -> Z) (b j : Z) (a : list A) :
  (forall x, In x a -> g x = b) ->
  Np.count_eq j (map g a) = if Z.eqb j b then length a else 0%nat.
Proof.
  induction a as [| x r IH]; intros H.
  - simpl. destruct (Z.eqb j b); reflexivity.
  - simpl map. rewrite count_eq_cons, (H x (or_introl eq_refl)).
    rewrite IH by (intros y Hy; apply H; right; exact Hy).
    destruct (Z.eqb j b); reflexivity.
Qed.

Lemma count_eq_member {A : Type} (g : A -> Z) (x : A) (a : list A) :
  In x a -> (1 <= Np.count_eq (g x) (map g a))%nat.
Proof.
  induction a as [| y r IH]; intros Hx; [destruct Hx |].
  simpl map. rewrite count_eq_cons. destruct Hx as [-> | Hx].
  - rewrite Z.eqb_refl. lia.
  - specialize (IH Hx). lia.
Qed.

Lemma position_constant (mn mx x : Q) (n : nat) :
  mn == mx -> x == mn ->
  position (mn - (1 # 2)) (mx + (1 # 2)) n x
  == inject_Z (Z.of_nat n) / inject_Z 2.
Proof.
  intros Hm Hx. unfold position. rewrite Hx, <- Hm.
  setoid_replace (mn - (mn - (1 # 2))) with (1 # 2) by ring.
  setoid_replace (mn + (1 # 2) - (mn - (1 # 2))) with 1 by ring.
  change (inject_Z 2) with 2. field.
Qed.

Lemma bin_of_constant (mn mx x : Q) (n : nat) :
  (1 <= n)%nat -> mn == mx -> x == mn ->
  bin_of (mn - (1 # 2)) (mx + (1 # 2)) n x = (Z.of_nat n / 2)%Z.
Proof.
  intros Hn Hm Hx.
  assert (F : Qfloor (position (mn - (1 # 2)) (mx + (1 # 2)) n x)
              = (Z.of_nat n / 2)%Z)
    by (rewrite (position_constant n Hm Hx); symmetry; apply Zdiv_Qdiv).
  unfold bin_of. rewrite F. cbv zeta.
  destruct (Z.eqb_spec (Z.of_nat n / 2) (Z.of_nat n)) as [C | _];
    [| reflexivity].
  pose proof (Z.div_lt (Z.of_nat n) 2). lia.
Qed.





(** ** The report writer: what the lines start with *)

Lemma head_char_append (a b : string) :
  a <> EmptyString -> head_char (a ++ b) = head_char a.
Proof. destruct a; [congruence | reflexivity]. Qed.

Lemma plain_integer_head (s : string) :
  plain_integer s -> exists a, head_char s = Some a /\ is_digit a = true.
Proof.
  intros [Hne Hd]. destruct s as [| a r]; [congruence |].
  exists a. split; [reflexivity |].
  unfold all_digits in Hd. simpl in Hd. apply andb_true_iff in Hd. tauto.
Qed.

Lemma six_decimals_head (s : string) : six_decimals s -> starts_like_number s.
Proof.
  intros (sign & ip & frac & -> & [-> | ->] & Hne & Hd & _).
  - simpl. destruct (plain_integer_head (conj Hne Hd)) as (a & Ha & Da).
    exists a. rewrite head_char_append by exact Hne. auto.
  - exists "-"%char. split; [reflexivity | left; reflexivity].
Qed.


(** ** The report writer: too few edges *)

Section ShortEdges.

Local Open Scope string_scope.

Variable env : Writer.io_env.
Variables (bin_edges : list Q) (hist_counts : list nat) (stats : statistics).
Variables (var_name : string) (var_info : option (list (string * string))).
Variable now : string.

Lemma getitem_beyond {A : Type} (l : list A) (i : nat) :
  (length l <= i)%nat -> Np.getitem l (Z.of_nat i) = Raise IndexError.
Proof.
  intros Hi. unfold Np.getitem.
  destruct (Z.ltb_spec (Z.of_nat i) 0) as [C | _]; [lia |].
  destruct (Z.ltb_spec (Z.of_nat i) 0) as [C | _]; [lia |].
  rewrite Nat2Z.id.
  replace (nth_error l i) with (@None A)
    by (symmetry; apply nth_error_None; exact Hi).
  reflexivity.
Qed.

Lemma write_bin_in_bounds (i : nat) h :
  (i < length hist_counts)%nat -> (S i < length bin_edges)%nat ->
  Writer.write_bin env bin_edges hist_counts i h
  = Writer.fwrite env (data_line bin_edges hist_counts i) h.
Proof.
  intros Hi He. unfold Writer.write_bin, Writer.io_bind, Writer.lift.
  rewrite (getitem_nth bin_edges 0%Q) by lia.
  replace (Z.of_nat i + 1)%Z with (Z.of_nat (S i)) by lia.
  rewrite (getitem_nth bin_edges 0%Q) by lia.
  rewrite (getitem_nth hist_counts 0%nat) by lia.
  reflexivity.
Qed.

Lemma write_bin_out_of_bounds (i : nat) h :
  (length bin_edges <= S i)%nat ->
  Writer.write_bin env bin_edges hist_counts i h = (Raise IndexError, h).
Proof.
  intros He. unfold Writer.write_bin, Writer.io_bind, Writer.lift.
  destruct (Nat.lt_ge_cases i (length bin_edges)) as [Hi | Hi].
  - rewrite (getitem_nth bin_edges 0%Q) by exact Hi.
    replace (Z.of_nat i + 1)%Z with (Z.of_nat (S i)) by lia.
    rewrite getitem_beyond by exact He. reflexivity.
  - rewrite getitem_beyond by exact Hi. reflexivity.
Qed.

Lemma emit_bind_cons {B : Type} (x : string) (r : list string)
    (k : unit -> Writer.IO B) h :
  Writer.io_bind (emit env (x :: r)) k h
  = Writer.io_bind (Writer.fwrite env x)
      (fun _ => Writer.io_bind (emit env r) k) h.
Proof.
  change (emit env (x :: r))
    with (Writer.io_bind (Writer.fwrite env x) (fun _ => emit env r)).
  apply bind_assoc.
Qed.

Lemma emit_bind_app {B : Type} (a b : list string)
    (k : unit -> Writer.IO B) : forall h,
  Writer.io_bind (emit env (a ++ b)%list) k h
  = Writer.io_bind (emit env a) (fun _ => Writer.io_bind (emit env b) k) h.
Proof.
  induction a as [| x r IH]; intros h.
  - reflexivity.
  - simpl app. rewrite !emit_bind_cons.
    apply bind_cong. intros _ h'. apply IH.
Qed.

(** The body of the writer is the header followed by the loop. *)
Lemma write_body_split h :
  Writer.write_body env bin_edges hist_counts stats var_name var_info now h
  = Writer.io_bind (emit env (header_chunks stats var_name var_info now))
      (fun _ => Writer.for_each (seq 0 (length hist_counts))
                  (Writer.write_bin env bin_edges hist_counts)) h.
Proof.
  unfold Writer.write_body, header_chunks.
  rewrite emit_bind_cons. apply bind_cong. intros _ h1.
  rewrite emit_bind_cons. apply bind_cong. intros _ h2.
  rewrite emit_bind_app.
  apply bind_cong2; [apply info_emit |]. intros _ h3.
  unfold stats_chunks.
  repeat (rewrite emit_bind_cons; apply bind_cong; intros _ ?).
  reflexivity.
Qed.

(** The loop when the edges run out at pass [k]. *)
Lemma loop_runs_out (k : nat) : forall (m s : nat) h,
  Writer.fault env = None ->
  (S k = length bin_edges \/ (k = 0%nat /\ bin_edges = [])) ->
  (s + m <= length hist_counts)%nat -> (s <= k < s + m)%nat ->
  Writer.for_each (seq s m) (Writer.write_bin env bin_edges hist_counts) h
  = (Raise IndexError,
     {| Writer.content :=
          Writer.content h
          ++ join (map (data_line bin_edges hist_counts) (seq s (k - s)));
        Writer.calls := Writer.calls h + (k - s) |}).
Proof.
  induction m as [| m IH]; intros s h F Hk Hm Hs; [lia |].
  simpl Writer.for_each. unfold Writer.io_bind.
  destruct (Nat.eq_dec s k) as [-> | Hne].
  - rewrite write_bin_out_of_bounds
      by (destruct Hk as [Hk | [_ ->]]; simpl; lia).
    rewrite Nat.sub_diag, Nat.add_0_r. simpl. rewrite append_nil_r.
    destruct h; reflexivity.
  - rewrite write_bin_in_bounds
      by (destruct Hk as [Hk | [Hk _]]; lia).
    unfold Writer.fwrite. rewrite F.
    rewrite IH by (try assumption; simpl; lia).
    simpl Writer.content. simpl Writer.calls.
    replace (k - s)%nat with (S (k - S s)) by lia.
    simpl. rewrite append_assoc. do 3 f_equal. lia.
Qed.

End ShortEdges.

Lemma firstn_seq_le : forall (k s c : nat),
  (k <= c)%nat -> firstn k (seq s c) = seq s k.
Proof.
  induction k as [| k IH]; intros s c Hk; [reflexivity |].
  destruct c as [| c]; [lia |]. simpl. f_equal. apply IH. lia.
Qed.

(** With no more edges than counts, and at least one count, the writer
    raises [IndexError] where the edges run out, and the file is left with
    the header and the data lines of the bins before that one. *)
Theorem too_few_edges_index_error (env : Writer.io_env) (dest : option string)
    (bin_edges : list Q) (hist_counts : list nat) (stats : statistics)
    (var_name : string) (var_info : option (list (string * string)))
    (now : string) :
  Writer.can_open env = true -> Writer.fault env = None ->
  (length bin_edges <= length hist_counts)%nat ->
  (0 < length hist_counts)%nat ->
  Writer.write_histogram_to_text env dest bin_edges hist_counts stats
    var_name var_info now
  = (Raise IndexError,
     Some (join (header_chunks stats var_name var_info now)
           ++ join (firstn (length bin_edges - 1)
                      (data_chunks bin_edges hist_counts)))%string).
Proof.
  intros Hopen F Hle Hpos. unfold Writer.write_histogram_to_text.
  rewrite Hopen, write_body_split. unfold Writer.io_bind.
  rewrite emit_no_fault by exact F.
  rewrite (@loop_runs_out env bin_edges hist_counts (length bin_edges - 1));
    try assumption; try lia.
  - simpl. rewrite Nat.sub_0_r. unfold data_chunks.
    rewrite firstn_map, firstn_seq_le by lia. reflexivity.
  - destruct bin_edges; [right; split; reflexivity | left; simpl; lia].
Qed.

Lemma too_few_edges_index_error_witness :
  Writer.can_open fair_weather = true /\ Writer.fault fair_weather = None /\
  (length [0; 1] <= length [1; 2]%nat)%nat /\ (0 < length [1; 2]%nat)%nat /\
  Writer.write_histogram_to_text fair_weather None [0; 1] [1; 2]%nat
    sample_stats "sst" None "2024-01-01 00:00:00"
  = (Raise IndexError,
     Some (join (header_chunks sample_stats "sst" None "2024-01-01 00:00:00")
           ++ join (firstn (length [0; 1] - 1)
                      (data_chunks [0; 1] [1; 2]%nat)))%string).
Proof.
  split; [reflexivity |]. split; [reflexivity |].
  split; [simpl; lia |]. split; [simpl; lia |].
  apply (@too_few_edges_index_error fair_weather None [0; 1] [1; 2]%nat
           sample_stats "sst" None "2024-01-01 00:00:00");
    [reflexivity | reflexivity | simpl; lia | simpl; lia].
Defined.

(** ** Dictionaries *)

Section Dictionaries.

Variable V : Type.

Lemma dict_get_set_same (d : dict V) (k : string) (v : V) :
  dict_get (dict_set d k v) k = Some v.
Proof.
  induction d as [| [k' v'] r IH]; simpl.
  - rewrite String.eqb_refl. reflexivity.
  - destruct (String.eqb k' k) eqn:E; simpl; rewrite E; [reflexivity | exact IH].
Qed.

Lemma dict_get_set_other (d : dict V) (k k' : string) (v : V) :
  k' <> k -> dict_get (dict_set d k v) k' = dict_get d k'.
Proof.
  intros Hne. induction d as [| [k0 v0] r IH]; simpl.
  - replace (String.eqb k k') with false; [reflexivity |].
    symmetry. apply String.eqb_neq. congruence.
  - destruct (String.eqb k0 k) eqn:E; simpl.
    + apply String.eqb_eq in E. subst k0.
      replace (String.eqb k k') with false; [reflexivity |].
      symmetry. apply String.eqb_neq. congruence.
    + rewrite IH. reflexivity.
Qed.

Lemma dict_set_fresh (d : dict V) (k : string) (v : V) :
  ~ In k (keys d) -> dict_set d k v = (d ++ [(k, v)])%list.
Proof.
  induction d as [| [k' v'] r IH]; simpl; intros H; [reflexivity |].
  destruct (String.eqb_spec k' k) as [-> | _]; [tauto |].
  rewrite IH by tauto. reflexivity.
Qed.

Lemma keys_set (d : dict V) (k : string) (v : V) :
  keys (dict_set d k v)
  = if existsb (String.eqb k) (keys d) then keys d else (keys d ++ [k])%list.
Proof.
  induction d as [| [k' v'] r IH]; simpl; [reflexivity |].
  rewrite (String.eqb_sym k k').
  destruct (String.eqb k' k) eqn:E; simpl; [reflexivity |].
  unfold keys in *. rewrite IH.
  destruct (existsb (String.eqb k) (map fst r)); reflexivity.
Qed.

Lemma existsb_eqb_In (k : string) (l : list string) :
  existsb (String.eqb k) l = true <-> In k l.
Proof.
  rewrite existsb_exists. split.
  - intros (x & Hx & E). apply String.eqb_eq in E. subst. exact Hx.
  - intros H. exists k. split; [exact H | apply String.eqb_refl].
Qed.

Lemma keys_set_NoDup (d : dict V) (k : string) (v : V) :
  NoDup (keys d) -> NoDup (keys (dict_set d k v)).
Proof.
  intros H. rewrite keys_set.
  destruct (existsb (String.eqb k) (keys d)) eqn:E; [exact H |].
  apply NoDup_app; [exact H | repeat constructor; intros [] | ].
  - intros x Hx [<- | []].
    apply existsb_eqb_In in Hx. congruence.
Qed.

Lemma dict_get_None (d : dict V) (k : string) :
  dict_get d k = None <-> ~ In k (keys d).
Proof.
  induction d as [| [k' v'] r IH]; simpl; [tauto |].
  destruct (String.eqb_spec k' k) as [-> | Hne].
  - split; [discriminate | tauto].
  - rewrite IH. tauto.
Qed.

Lemma dict_get_In (d : dict V) (k : string) (v : V) :
  NoDup (keys d) -> In (k, v) d -> dict_get d k = Some v.
Proof.
  induction d as [| [k' v'] r IH]; simpl; intros Hnd Hin; [destruct Hin |].
  inversion Hnd as [| ? ? Hk Hr]; subst.
  destruct Hin as [E | Hin].
  - inversion E; subst. rewrite String.eqb_refl. reflexivity.
  - destruct (String.eqb_spec k' k) as [-> | _].
    + exfalso. apply Hk. apply (in_map fst) in Hin. exact Hin.
    + apply IH; assumption.
Qed.

End Dictionaries.

Lemma distinct_NoDup (l : list string) : distinct l = true -> NoDup l.
Proof.
  induction l as [| x r IH]; simpl; intros H; [constructor |].
  apply andb_true_iff in H. destruct H as [H1 H2].
  constructor; [| apply IH, H2].
  intro C. apply existsb_eqb_In in C. rewrite C in H1. discriminate.
Qed.

(** ** The variable information *)

Section VariableInfo.

Local Open Scope string_scope.

Variable attr : Type.

Let set_attr (info : dict (pyvalue attr)) (a : string * attr) :=
  dict_set info (fst a) (Attribute (snd a)).

Lemma fold_attrs_NoDup (attrs : list (string * attr)) : forall d,
  NoDup (keys d) -> NoDup (keys (fold_left set_attr attrs d)).
Proof.
  induction attrs as [| a r IH]; intros d H; simpl; [exact H |].
  apply IH, keys_set_NoDup, H.
Qed.

Lemma fold_attrs_get_other (attrs : list (string * attr)) (k : string) :
  forall d, ~ In k (keys attrs) ->
  dict_get (fold_left set_attr attrs d) k = dict_get d k.
Proof.
  induction attrs as [| a r IH]; intros d H; simpl in *; [reflexivity |].
  rewrite IH by tauto. apply dict_get_set_other. intro C. apply H. auto.
Qed.

Lemma fold_attrs_get (attrs : list (string * attr)) (k : string) (v : attr) :
  forall d, NoDup (keys attrs) -> In (k, v) attrs ->
  dict_get (fold_left set_attr attrs d) k = Some (Attribute v).
Proof.
  induction attrs as [| a r IH]; intros d Hnd Hin; [destruct Hin |].
  simpl in Hnd. inversion Hnd as [| ? ? Ha Hr]; subst. simpl.
  destruct Hin as [-> | Hin].
  - rewrite fold_attrs_get_other by exact Ha. apply dict_get_set_same.
  - apply IH; assumption.
Qed.

Lemma fold_attrs_fresh (attrs : list (string * attr)) : forall d,
  NoDup (keys attrs) -> (forall k, In k (keys attrs) -> ~ In k (keys d)) ->
  fold_left set_attr attrs d
  = (d ++ map (fun a => (fst a, Attribute (snd a))) attrs)%list.
Proof.
  induction attrs as [| a r IH]; intros d Hnd Hd; simpl.
  - rewrite app_nil_r. reflexivity.
  - simpl in Hnd. inversion Hnd as [| ? ? Ha Hr]; subst.
    unfold set_attr at 2. rewrite dict_set_fresh by (apply Hd; left; reflexivity).
    rewrite IH; [rewrite <- app_assoc; reflexivity | exact Hr |].
    intros k Hk. unfold keys. rewrite map_app, in_app_iff. simpl.
    intros [C | [C | []]].
    + apply (Hd k); [right; exact Hk | exact C].
    + subst k. apply Ha, Hk.
Qed.

Lemma info_exists (ds : dataset attr) (var_name : string)
    (var : variable attr) :
  dict_get ds var_name = Some var ->
  exists info, get_variable_info ds var_name = Some info.
Proof.
  intros H. unfold get_variable_info. rewrite H. eexists. reflexivity.
Qed.

(** [get_variable_info] fails (with [KeyError]) exactly on the names that
    are not in the dataset. *)
Theorem info_unknown_name (ds : dataset attr) (var_name : string) :
  get_variable_info ds var_name = None <-> ~ In var_name (keys ds).
Proof.
  unfold get_variable_info. rewrite <- dict_get_None.
  destruct (dict_get ds var_name); split; congruence.
Qed.

(** The information of a variable holds its shape, data type and dimension
    names under [shape], [dtype] and [dimensions], also when an attribute
    of the variable bears one of these names; and no key occurs twice. *)
Theorem info_reserved_keys (ds : dataset attr) (var_name : string)
    (var : variable attr) :
  dict_get ds var_name = Some var ->
  exists info,
    get_variable_info ds var_name = Some info /\
    dict_get info "shape" = Some (Shape (shape var)) /\
    dict_get info "dtype" = Some (Text (dtype var)) /\
    dict_get info "dimensions" = Some (Dimensions (dimensions var)) /\
    NoDup (keys info).
Proof.
  intros H. unfold get_variable_info. rewrite H. eexists.
  split; [reflexivity |].
  split; [rewrite !dict_get_set_other by discriminate; apply dict_get_set_same |].
  split; [rewrite dict_get_set_other by discriminate; apply dict_get_set_same |].
  split; [apply dict_get_set_same |].
  do 3 apply keys_set_NoDup. apply fold_attrs_NoDup. constructor.
Qed.



End VariableInfo.

(** ** Path names *)

Section Paths.

Local Open Scope string_scope.

Lemma append_length (a b : string) :
  String.length (a ++ b) = (String.length a + String.length b)%nat.
Proof. induction a as [| x a IH]; simpl; [reflexivity | rewrite IH; reflexivity]. Qed.

Lemma append_inj_l (a x y : string) : a ++ x = a ++ y -> x = y.
Proof.
  induction a as [| c a IH]; simpl; intros H; [exact H |].
  inversion H. auto.
Qed.

Lemma append_inj_r (s : string) : forall x y, x ++ s = y ++ s -> x = y.
Proof.
  induction x as [| c x IH]; intros [| d y] H; simpl in H.
  - reflexivity.
  - apply (f_equal String.length) in H. simpl in H.
    rewrite append_length in H. lia.
  - apply (f_equal String.length) in H. simpl in H.
    rewrite append_length in H. lia.
  - inversion H. f_equal. apply IH. assumption.
Qed.

Lemma occurs_append (c : ascii) (a b : string) :
  occurs c (a ++ b) = (occurs c a || occurs c b)%bool.
Proof.
  induction a as [| x a IH]; simpl; [reflexivity |].
  rewrite IH, orb_assoc. reflexivity.
Qed.

Lemma cut_last_None (c : ascii) (p : string) :
  Path.cut_last c p = None -> occurs c p = false.
Proof.
  induction p as [| a r IH]; simpl; [reflexivity |].
  destruct (Path.cut_last c r) as [[x y] |]; [discriminate |].
  destruct (Ascii.eqb a c); [discriminate |]. intros _. apply IH. reflexivity.
Qed.

Lemma cut_last_Some (c : ascii) (p : string) : forall x y,
  Path.cut_last c p = Some (x, y) ->
  p = x ++ String c y /\ occurs c y = false.
Proof.
  induction p as [| a r IH]; simpl; intros x y H; [discriminate |].
  destruct (Path.cut_last c r) as [[x' y'] |] eqn:E.
  - inversion H; subst. destruct (IH x' y eq_refl) as [-> Hy].
    split; [reflexivity | exact Hy].
  - destruct (Ascii.eqb_spec a c) as [-> | _]; [| discriminate].
    inversion H; subst. split; [reflexivity |].
    apply cut_last_None, E.
Qed.

Lemma basename_no_sep (p : string) : occurs Path.sep (Path.basename p) = false.
Proof.
  unfold Path.basename.
  destruct (Path.cut_last Path.sep p) as [[x y] |] eqn:E.
  - apply (cut_last_Some _ _ E).
  - apply cut_last_None, E.
Qed.

(** The root and the extension [os.path.splitext] returns make up the
    path. *)
Lemma splitext_join (p : string) :
  fst (Path.splitext p) ++ snd (Path.splitext p) = p.
Proof.
  unfold Path.splitext.
  destruct (Path.cut_last Path.extsep (Path.basename p)) as [[stem ext] |] eqn:E.
  - destruct (Path.all_char Path.extsep stem); simpl; [apply append_nil_r |].
    destruct (cut_last_Some _ _ E) as [B _].
    rewrite append_assoc, <- B. unfold Path.basename.
    destruct (Path.cut_last Path.sep p) as [[x y] |] eqn:F; [| reflexivity].
    destruct (cut_last_Some _ _ F) as [-> _].
    rewrite append_assoc. reflexivity.
  - simpl. apply append_nil_r.
Qed.

Lemma stem_no_sep (p : string) :
  occurs Path.sep (fst (Path.splitext (Path.basename p))) = false.
Proof.
  pose proof (basename_no_sep p) as H.
  rewrite <- (splitext_join (Path.basename p)), occurs_append in H.
  apply orb_false_iff in H. tauto.
Qed.

Lemma startswith_name (c u : ascii) (base x y : string) :
  Path.startswith c (base ++ String u x) = Path.startswith c (base ++ String u y).
Proof. destruct base; reflexivity. Qed.

Lemma startswith_no_sep (base x : string) :
  occurs Path.sep base = false ->
  Path.startswith Path.sep (base ++ "_" ++ x) = false.
Proof.
  destruct base as [| a r]; simpl; [reflexivity |].
  intros H. apply orb_false_iff in H. tauto.
Qed.

End Paths.

Lemma output_file_inj (output_dir base_filename v1 v2 : string) :
  output_file output_dir base_filename v1
  = output_file output_dir base_filename v2 ->
  v1 = v2.
Proof.
  unfold output_file, Path.join. simpl append.
  rewrite (startswith_name Path.sep "_" base_filename
             (v1 ++ "_histogram.txt") (v2 ++ "_histogram.txt")).
  intros H.
  assert (E : (base_filename ++ String "_" (v1 ++ "_histogram.txt"))%string
              = (base_filename ++ String "_" (v2 ++ "_histogram.txt"))%string).
  { destruct (Path.startswith Path.sep
                (base_filename ++ String "_" (v2 ++ "_histogram.txt"))).
    - exact H.
    - destruct (String.eqb output_dir "" || Path.endswith Path.sep output_dir)%bool.
      + apply (append_inj_l _ _ _ H).
      + apply append_inj_l in H. inversion H. reflexivity. }
  apply append_inj_l in E. inversion E as [E'].
  apply (append_inj_r _ _ _ E').
Qed.

(** Two variables of different names are written to different files. *)
Theorem output_file_injective (output_dir base_filename v1 v2 : string) :
  output_file output_dir base_filename v1
  = output_file output_dir base_filename v2 ->
  v1 = v2.
Proof.
  intros H. exact (output_file_inj _ _ _ _ H).
Qed.

Lemma output_file_injective_witness :
  output_file "out" "scene" "sst" = output_file "out" "scene" "sst" /\
  "sst"%string = "sst"%string.
Proof.
  split; [reflexivity |].
  apply (@output_file_injective "out" "scene" "sst" "sst"). reflexivity.
Defined.

(** The output file of a variable is named after the input file without
    its extension and after the variable, and its path is the output
    directory, a separator unless the directory is empty or ends with one,
    and that name. *)
Theorem output_file_in_output_dir (filepath output_dir var_name : string) :
  let base_filename := fst (Path.splitext (Path.basename filepath)) in
  let s := if (String.eqb output_dir "" || Path.endswith Path.sep output_dir)%bool
           then ""%string else "/"%string in
  (base_filename ++ snd (Path.splitext (Path.basename filepath)))%string
    = Path.basename filepath /\
  output_file output_dir base_filename var_name
  = (output_dir ++ s ++ base_filename ++ "_" ++ var_name
       ++ "_histogram.txt")%string.
Proof.
  intros base s. split; [apply splitext_join |].
  unfold output_file, Path.join, s.
  rewrite (@startswith_no_sep base _ (stem_no_sep filepath)).
  destruct (String.eqb output_dir "" || Path.endswith Path.sep output_dir)%bool;
    reflexivity.
Qed.

Lemma info_reserved_keys_witness :
  dict_get sample_dataset "sst" = Some sample_variable /\
  exists info,
    get_variable_info sample_dataset "sst" = Some info /\
    dict_get info "shape" = Some (Shape (shape sample_variable)) /\
    dict_get info "dtype" = Some (Text (dtype sample_variable)) /\
    dict_get info "dimensions"
      = Some (Dimensions (dimensions sample_variable)) /\
    NoDup (keys info).
Proof.
  split; [reflexivity |].
  apply (@info_reserved_keys string sample_dataset "sst" sample_variable).
  reflexivity.
Defined.



(** ** The run over the variables *)

Section Run.

Local Open Scope string_scope.

Variable attr : Type.
Variable py_str : pyvalue attr -> string.
Variable w : world attr.
Variable ds : dataset attr.
Variables output_dir base_filename : string.
Variable bins : Z.
Variable variables : option (list string).

Let step := process_variable py_str w ds output_dir base_filename bins variables.
Let path := output_file output_dir base_filename.

Lemma update_same (f : string -> option string) (k : string) (v : option string) :
  update f k v k = v.
Proof. unfold update. rewrite String.eqb_refl. reflexivity. Qed.

Lemma update_other (f : string -> option string) (k p : string)
    (v : option string) :
  p <> k -> update f k v p = f p.
Proof.
  intros H. unfold update.
  destruct (String.eqb_spec p k); [contradiction | reflexivity].
Qed.

(** A pass leaves the other files alone. *)
Lemma step_frame (st : filesystem * nat) (k : string) (v : variable attr)
    (p : string) :
  p <> path k -> files (fst (step st (k, v))) p = files (fst st) p.
Proof.
  intros Hp. unfold step, process_variable.
  destruct (skipped_by_filter variables k); [reflexivity |].
  destruct (Nat.leb (length (shape v)) 1); [reflexivity |].
  destruct (read v) as [data_flat |]; [| reflexivity].
  destruct (compute_histogram data_flat bins) as [| e c s |]; try reflexivity.
  destruct (get_variable_info ds k) as [info |]; [| reflexivity].
  fold (path k).
  destruct (Writer.write_histogram_to_text _ _ _ _ _ _ _ _) as [[[] | ex] after];
    simpl; apply update_other, Hp.
Qed.

(** A pass keeps the directories, and counts at most one variable. *)
Lemma step_counts (st : filesystem * nat) (item : string * variable attr) :
  made (fst (step st item)) = made (fst st) /\
  (snd st <= snd (step st item) <= snd st + 1)%nat /\
  (eligible variables item = false -> snd (step st item) = snd st).
Proof.
  destruct item as [k v]. unfold step, process_variable, eligible. simpl fst.
  simpl snd.
  destruct (skipped_by_filter variables k); [simpl; repeat split; lia |].
  destruct (Nat.leb_spec (length (shape v)) 1) as [L | L];
    [simpl; repeat split; lia |].
  replace (Nat.leb 2 (length (shape v))) with true
    by (symmetry; apply Nat.leb_le; lia).
  destruct (read v) as [data_flat |]; [| repeat split; (lia || discriminate)].
  destruct (compute_histogram data_flat bins) as [| e c s |];
    try (repeat split; (lia || discriminate)).
  destruct (get_variable_info ds k) as [info |];
    [| repeat split; (lia || discriminate)].
  destruct (Writer.write_histogram_to_text _ _ _ _ _ _ _ _) as [[[] | ex] after];
    simpl; repeat split; (lia || discriminate).
Qed.

(** What a pass leaves in the file of its variable depends on the state
    only through what that file held. *)
Lemma step_own (st st' : filesystem * nat) (k : string) (v : variable attr) :
  files (fst st) (path k) = files (fst st') (path k) ->
  files (fst (step st (k, v))) (path k)
  = files (fst (step st' (k, v))) (path k).
Proof.
  intros H. unfold step, process_variable.
  destruct (skipped_by_filter variables k); [exact H |].
  destruct (Nat.leb (length (shape v)) 1); [exact H |].
  destruct (read v) as [data_flat |]; [| exact H].
  destruct (compute_histogram data_flat bins) as [| e c s |]; try exact H.
  destruct (get_variable_info ds k) as [info |]; [| exact H].
  fold (path k). rewrite H.
  destruct (Writer.write_histogram_to_text _ _ _ _ _ _ _ _) as [[[] | ex] after];
    simpl; rewrite !update_same; reflexivity.
Qed.

Lemma fold_frame (l : list (string * variable attr)) (p : string) :
  forall st,
  (forall k, In k (keys l) -> p <> path k) ->
  files (fst (fold_left step l st)) p = files (fst st) p.
Proof.
  induction l as [| [k v] r IH]; intros st H; simpl; [reflexivity |].
  rewrite IH by (intros k' Hk'; apply H; right; exact Hk').
  apply step_frame, H. left. reflexivity.
Qed.

Lemma path_injective (k k' : string) : path k = path k' -> k = k'.
Proof. apply output_file_inj. Qed.

Lemma fold_own (l : list (string * variable attr)) (k : string)
    (v : variable attr) :
  forall st,
  NoDup (keys l) -> In (k, v) l ->
  files (fst (fold_left step l st)) (path k)
  = files (fst (step st (k, v))) (path k).
Proof.
  induction l as [| [k0 v0] r IH]; intros st Hnd Hin; [destruct Hin |].
  simpl in Hnd. inversion Hnd as [| ? ? Hk Hr]; subst. simpl.
  destruct Hin as [E | Hin].
  - inversion E; subst. apply fold_frame.
    intros k' Hk' C. apply path_injective in C. subst k'. contradiction.
  - assert (Hne : k <> k0).
    { intro C. subst k0. apply Hk. apply (in_map fst) in Hin. exact Hin. }
    rewrite (IH _ Hr Hin). apply step_own. apply step_frame.
    intro C. apply path_injective in C. contradiction.
Qed.

Lemma fold_counts (l : list (string * variable attr)) : forall st,
  made (fst (fold_left step l st)) = made (fst st) /\
  (snd (fold_left step l st)
   <= snd st + length (filter (eligible variables) l))%nat.
Proof.
  induction l as [| item r IH]; intros st; simpl; [split; [reflexivity | lia] |].
  destruct (IH (step st item)) as [M C].
  destruct (step_counts st item) as (M' & [_ U] & Z).
  split; [congruence |].
  destruct (eligible variables item); simpl; [lia |].
  rewrite Z in C by reflexivity. exact C.
Qed.

(** With a bin count of zero or less no pass does anything. *)
Lemma fold_nonpositive_bins (l : list (string * variable attr)) : forall st,
  (bins <= 0)%Z -> fold_left step l st = st.
Proof.
  intros st Hb. revert st.
  induction l as [| [k v] r IH]; intros st; simpl; [reflexivity |].
  rewrite IH. unfold step, process_variable.
  destruct (skipped_by_filter variables k); [reflexivity |].
  destruct (Nat.leb (length (shape v)) 1); [reflexivity |].
  destruct (read v) as [data_flat |]; [| reflexivity].
  unfold compute_histogram.
  destruct (Nat.eqb (length (clean_data data_flat)) 0); [reflexivity |].
  unfold Np.histogram.
  destruct (Z.ltb_spec bins 1) as [_ | C]; [reflexivity | lia].
Qed.

End Run.

Lemma dict_get_Some_In {V : Type} (d : dict V) (k : string) (v : V) :
  dict_get d k = Some v -> In (k, v) d.
Proof.
  induction d as [| [k' v'] r IH]; simpl; [discriminate |].
  destruct (String.eqb_spec k' k) as [-> | _].
  - intros H. inversion H. left. reflexivity.
  - intros H. right. apply IH, H.
Qed.

Lemma histogram_has_more_edges (data : list sample) (bins : Z) :
  existsb isfinite data = true -> (1 <= bins)%Z ->
  exists bin_edges hist_counts stats,
    compute_histogram data bins = Histogram bin_edges hist_counts stats /\
    (length hist_counts < length bin_edges)%nat.
Proof.
  intros Hf Hb. pose proof (finite_nonempty _ Hf) as Ha.
  destruct (compute_histogram_ok data Ha Hb) as (mn & mx & Hmn & Hmx & E).
  destruct (outer_edges_cover Hmn Hmx) as [Hlt _].
  do 3 eexists. split; [exact E |].
  rewrite linspace_length by lia.
  unfold bin_counts. rewrite length_map, length_seq. lia.
Qed.

Section Runs.

Local Open Scope string_scope.

Variable attr : Type.
Variable py_str : pyvalue attr -> string.
Variable w : world attr.
Variable fs : filesystem.
Variable filepath : string.
Variable output_dir : option string.
Variable bins : Z.
Variable variables : option (list string).
Variable ds : dataset attr.

Hypothesis Hopen : open_dataset w filepath = Some ds.

Let dir := run_dir filepath output_dir.
Let run := process_eos06_nc_file py_str w fs filepath output_dir bins variables.
Let step :=
  process_variable py_str w ds dir (run_base filepath) bins variables.

Lemma run_unfold :
  run = if makedirs_ok w dir
        then (Ok (Some (snd (fold_left step ds (with_dir fs dir, 0%nat)))),
              fst (fold_left step ds (with_dir fs dir, 0%nat)))
        else (Raise OSError, fs).
Proof.
  unfold run, process_eos06_nc_file. rewrite Hopen.
  fold (run_dir filepath output_dir). fold dir.
  destruct (makedirs_ok w dir); [| reflexivity].
  fold (run_base filepath). fold (with_dir fs dir). fold step.
  destruct (fold_left step ds (with_dir fs dir, 0%nat)) as [fs' n]. reflexivity.
Qed.

Lemma run_nonpositive_bins :
  (bins <= 0)%Z -> makedirs_ok w dir = true ->
  run = (Ok (Some 0%nat), with_dir fs dir).
Proof.
  intros Hb Hm. rewrite run_unfold, Hm. unfold step.
  rewrite fold_nonpositive_bins by exact Hb. reflexivity.
Qed.

Lemma run_frame (p : string) :
  existsb (fun k => String.eqb p (run_path filepath output_dir k)) (keys ds)
  = false ->
  files (snd run) p = files fs p.
Proof.
  intros H. rewrite run_unfold.
  destruct (makedirs_ok w dir); [| reflexivity]. simpl snd.
  unfold step. rewrite fold_frame; [reflexivity |].
  intros k Hk C.
  assert (E : existsb (fun k => String.eqb p (run_path filepath output_dir k))
                (keys ds) = true).
  { apply existsb_exists. exists k. split; [exact Hk |].
    apply String.eqb_eq. exact C. }
  congruence.
Qed.

Lemma run_own (k : string) (v : variable attr) :
  makedirs_ok w dir = true -> distinct (keys ds) = true ->
  dict_get ds k = Some v ->
  files (snd run) (run_path filepath output_dir k)
  = files (fst (step (with_dir fs dir, 0%nat) (k, v)))
          (run_path filepath output_dir k).
Proof.
  intros Hm Hd Hk. rewrite run_unfold, Hm. simpl snd.
  unfold step, run_path. fold dir.
  apply fold_own; [apply distinct_NoDup, Hd | apply dict_get_Some_In, Hk].
Qed.

Lemma run_passed_over (k : string) (v : variable attr) :
  distinct (keys ds) = true -> dict_get ds k = Some v ->
  passed_over variables k v = true ->
  files (snd run) (run_path filepath output_dir k)
  = files fs (run_path filepath output_dir k).
Proof.
  intros Hd Hk Hp.
  destruct (makedirs_ok w dir) eqn:Hm.
  - rewrite (@run_own k v Hm Hd Hk). unfold step, process_variable.
    unfold passed_over in Hp.
    destruct (skipped_by_filter variables k); [reflexivity |].
    destruct (Nat.leb (length (shape v)) 1); [reflexivity |].
    simpl in Hp. destruct (read v) as [data_flat |]; [| reflexivity].
    apply negb_true_iff in Hp.
    assert (E : clean_data data_flat = []).
    { clear - Hp. induction data_flat as [| s r IH]; [reflexivity |].
      simpl in Hp. apply orb_false_iff in Hp. destruct Hp as [Hs Hr].
      destruct s; simpl in *; try discriminate; apply IH, Hr. }
    unfold compute_histogram. rewrite E. reflexivity.
  - rewrite run_unfold, Hm. reflexivity.
Qed.

Lemma run_written (k : string) (v : variable attr) (data_flat : list sample) :
  makedirs_ok w dir = true -> distinct (keys ds) = true ->
  dict_get ds k = Some v ->
  skipped_by_filter variables k = false ->
  (2 <= length (shape v))%nat ->
  read v = Ok data_flat -> existsb isfinite data_flat = true ->
  (1 <= bins)%Z ->
  Writer.can_open (io_of w (run_path filepath output_dir k)) = true ->
  Writer.fault (io_of w (run_path filepath output_dir k)) = None ->
  exists bin_edges hist_counts stats info,
    compute_histogram data_flat bins = Histogram bin_edges hist_counts stats /\
    get_variable_info ds k = Some info /\
    files (snd run) (run_path filepath output_dir k)
    = Some (join (document_chunks bin_edges hist_counts stats k
                    (rendered py_str info) (clock w k))).
Proof.
  intros Hm Hd Hk Hs Hsh Hr Hf Hb Hc Hn.
  destruct (@histogram_has_more_edges data_flat bins Hf Hb)
    as (e & c & s & E & L).
  destruct (@info_exists attr ds k v Hk) as (info & Hi).
  exists e, c, s, info. split; [exact E |]. split; [exact Hi |].
  rewrite (@run_own k v Hm Hd Hk). unfold step, process_variable.
  rewrite Hs.
  replace (Nat.leb (length (shape v)) 1) with false
    by (symmetry; apply Nat.leb_gt; lia).
  rewrite Hr, E, Hi.
  fold (run_base filepath). unfold run_path in *. fold dir in Hc, Hn |- *.
  rewrite write_complete; [| exact L | exact Hc |].
  - simpl. apply update_same.
  - unfold no_write_fails. rewrite Hn. exact I.
Qed.

Lemma run_count :
  makedirs_ok w dir = true ->
  exists n fs',
    run = (Ok (Some n), fs') /\
    made fs' = (made fs ++ [dir])%list /\
    (n <= length (filter (eligible variables) ds))%nat.
Proof.
  intros Hm. rewrite run_unfold, Hm. do 2 eexists. split; [reflexivity |].
  unfold step.
  destruct (fold_counts py_str w ds dir (run_base filepath) bins variables ds
              (with_dir fs dir, 0%nat)) as [M C].
  split; [exact M | exact C].
Qed.

End Runs.

(** ** Properties of the run *)

(** A bin count of zero or less does not stop the run: the error of every
    variable is caught, no file is written, and the run ends with zero
    variables processed. *)
Theorem nonpositive_bins_write_nothing (attr : Type)
    (py_str : pyvalue attr -> string) (w : world attr) (fs : filesystem)
    (filepath : string) (output_dir : option string) (bins : Z)
    (variables : option (list string)) (ds : dataset attr) :
  open_dataset w filepath = Some ds ->
  makedirs_ok w (run_dir filepath output_dir) = true ->
  (bins <= 0)%Z ->
  process_eos06_nc_file py_str w fs filepath output_dir bins variables
  = (Ok (Some 0%nat), with_dir fs (run_dir filepath output_dir)).
Proof.
  intros Ho Hm Hb.
  apply (@run_nonpositive_bins attr py_str w fs filepath output_dir bins
           variables ds Ho Hb Hm).
Qed.

Lemma nonpositive_bins_write_nothing_witness :
  open_dataset sample_world "data/scene.nc" = Some sample_dataset /\
  makedirs_ok sample_world (run_dir "data/scene.nc" None) = true /\
  (0 <= 0)%Z /\
  process_eos06_nc_file sample_str sample_world empty_disk "data/scene.nc"
    None 0 None
  = (Ok (Some 0%nat), with_dir empty_disk (run_dir "data/scene.nc" None)).
Proof.
  split; [reflexivity |]. split; [reflexivity |]. split; [lia |].
  apply (@nonpositive_bins_write_nothing string sample_str sample_world
           empty_disk "data/scene.nc" None 0 None sample_dataset);
    [reflexivity | reflexivity | lia].
Defined.

(** A run touches no file but the output files of the dataset's
    variables. *)
Theorem other_files_untouched (attr : Type)
    (py_str : pyvalue attr -> string) (w : world attr) (fs : filesystem)
    (filepath : string) (output_dir : option string) (bins : Z)
    (variables : option (list string)) (ds : dataset attr) (p : string) :
  open_dataset w filepath = Some ds ->
  existsb (fun k => String.eqb p (run_path filepath output_dir k)) (keys ds)
  = false ->
  files (snd (process_eos06_nc_file py_str w fs filepath output_dir bins
                variables)) p
  = files fs p.
Proof.
  intros Ho Hp.
  apply (@run_frame attr py_str w fs filepath output_dir bins variables ds
           Ho p Hp).
Qed.

Lemma other_files_untouched_witness :
  open_dataset sample_world "data/scene.nc" = Some sample_dataset /\
  existsb (fun k => String.eqb "data/scene.nc"
                      (run_path "data/scene.nc" None k))
          (keys sample_dataset) = false /\
  files (snd (process_eos06_nc_file sample_str sample_world empty_disk
                "data/scene.nc" None 2 None)) "data/scene.nc"
  = files empty_disk "data/scene.nc".
Proof.
  split; [reflexivity |]. split; [reflexivity |].
  apply (@other_files_untouched string sample_str sample_world empty_disk
           "data/scene.nc" None 2 None sample_dataset "data/scene.nc");
    reflexivity.
Defined.

(** What a run leaves in the output file of a variable is what processing
    that variable alone leaves there: the other variables, and their
    failures, have no part in it. *)
Theorem file_depends_on_own_variable (attr : Type)
    (py_str : pyvalue attr -> string) (w : world attr) (fs : filesystem)
    (filepath : string) (output_dir : option string) (bins : Z)
    (variables : option (list string)) (ds : dataset attr)
    (k : string) (v : variable attr) :
  open_dataset w filepath = Some ds ->
  makedirs_ok w (run_dir filepath output_dir) = true ->
  distinct (keys ds) = true ->
  dict_get ds k = Some v ->
  files (snd (process_eos06_nc_file py_str w fs filepath output_dir bins
                variables)) (run_path filepath output_dir k)
  = files (fst (process_variable py_str w ds (run_dir filepath output_dir)
                  (run_base filepath) bins variables
                  (with_dir fs (run_dir filepath output_dir), 0%nat) (k, v)))
          (run_path filepath output_dir k).
Proof.
  intros Ho Hm Hd Hk.
  apply (@run_own attr py_str w fs filepath output_dir bins variables ds
           Ho k v Hm Hd Hk).
Qed.

Lemma file_depends_on_own_variable_witness :
  open_dataset sample_world "data/scene.nc" = Some sample_dataset /\
  makedirs_ok sample_world (run_dir "data/scene.nc" None) = true /\
  distinct (keys sample_dataset) = true /\
  dict_get sample_dataset "dem" = Some plain_variable /\
  files (snd (process_eos06_nc_file sample_str sample_world empty_disk
                "data/scene.nc" None 2 None))
        (run_path "data/scene.nc" None "dem")
  = files (fst (process_variable sample_str sample_world sample_dataset
                  (run_dir "data/scene.nc" None) (run_base "data/scene.nc")
                  2 None
                  (with_dir empty_disk (run_dir "data/scene.nc" None), 0%nat)
                  ("dem"%string, plain_variable)))
          (run_path "data/scene.nc" None "dem").
Proof.
  split; [reflexivity |]. split; [reflexivity |]. split; [reflexivity |].
  split; [reflexivity |].
  apply (@file_depends_on_own_variable string sample_str sample_world
           empty_disk "data/scene.nc" None 2 None sample_dataset
           "dem" plain_variable); reflexivity.
Defined.

(** A variable that is filtered out, has at most one dimension, cannot be
    read, or has no finite value, leaves its output file as it was: none
    is made, and one that exists is not overwritten. *)
Theorem passed_over_untouched (attr : Type)
    (py_str : pyvalue attr -> string) (w : world attr) (fs : filesystem)
    (filepath : string) (output_dir : option string) (bins : Z)
    (variables : option (list string)) (ds : dataset attr)
    (k : string) (v : variable attr) :
  open_dataset w filepath = Some ds ->
  distinct (keys ds) = true ->
  dict_get ds k = Some v ->
  passed_over variables k v = true ->
  files (snd (process_eos06_nc_file py_str w fs filepath output_dir bins
                variables)) (run_path filepath output_dir k)
  = files fs (run_path filepath output_dir k).
Proof.
  intros Ho Hd Hk Hp.
  apply (@run_passed_over attr py_str w fs filepath output_dir bins variables
           ds Ho k v Hd Hk Hp).
Qed.

Lemma passed_over_untouched_witness :
  open_dataset sample_world "data/scene.nc" = Some sample_dataset /\
  distinct (keys sample_dataset) = true /\
  dict_get sample_dataset "lat" = Some coordinate_variable /\
  passed_over None "lat" coordinate_variable = true /\
  files (snd (process_eos06_nc_file sample_str sample_world empty_disk
                "data/scene.nc" None 2 None))
        (run_path "data/scene.nc" None "lat")
  = files empty_disk (run_path "data/scene.nc" None "lat").
Proof.
  split; [reflexivity |]. split; [reflexivity |]. split; [reflexivity |].
  split; [reflexivity |].
  apply (@passed_over_untouched string sample_str sample_world empty_disk
           "data/scene.nc" None 2 None sample_dataset
           "lat" coordinate_variable); reflexivity.
Defined.



(** A run that opens the dataset and makes the output directory ends
    normally; it asks for no directory but the output directory, and the
    number of variables it reports as processed is at most the number of
    variables that pass the filter and have two dimensions or more. *)
Theorem processed_at_most_eligible (attr : Type)
    (py_str : pyvalue attr -> string) (w : world attr) (fs : filesystem)
    (filepath : string) (output_dir : option string) (bins : Z)
    (variables : option (list string)) (ds : dataset attr) :
  open_dataset w filepath = Some ds ->
  makedirs_ok w (run_dir filepath output_dir) = true ->
  exists n fs',
    process_eos06_nc_file py_str w fs filepath output_dir bins variables
    = (Ok (Some n), fs') /\
    made fs' = (made fs ++ [run_dir filepath output_dir])%list /\
    (n <= length (filter (eligible variables) ds))%nat.
Proof.
  intros Ho Hm.
  apply (@run_count attr py_str w fs filepath output_dir bins variables ds
           Ho Hm).
Qed.

Lemma processed_at_most_eligible_witness :
  open_dataset sample_world "data/scene.nc" = Some sample_dataset /\
  makedirs_ok sample_world (run_dir "data/scene.nc" None) = true /\
  exists n fs',
    process_eos06_nc_file sample_str sample_world empty_disk "data/scene.nc"
      None 2 None
    = (Ok (Some n), fs') /\
    made fs' = (made empty_disk ++ [run_dir "data/scene.nc" None])%list /\
    (n <= length (filter (eligible None) sample_dataset))%nat.
Proof.
  split; [reflexivity |]. split; [reflexivity |].
  apply (@processed_at_most_eligible string sample_str sample_world
           empty_disk "data/scene.nc" None 2 None sample_dataset);
    reflexivity.
Defined.

(** ** The default output directory *)

Lemma rstrip_empty (c : ascii) (s : string) :
  Path.rstrip c s = EmptyString -> Path.all_char c s = true.
Proof.
  induction s as [| a r IH]; simpl; [reflexivity |].
  destruct (Path.rstrip c r) as [| b r']; [| discriminate].
  destruct (Ascii.eqb a c); [| discriminate].
  intros _. simpl. apply IH. reflexivity.
Qed.

Lemma dirname_empty (p : string) :
  Path.dirname p = EmptyString <-> occurs Path.sep p = false.
Proof.
  unfold Path.dirname.
  destruct (Path.cut_last Path.sep p) as [[x y] |] eqn:E.
  - destruct (cut_last_Some _ _ E) as [-> _].
    assert (O : occurs Path.sep (x ++ String Path.sep y) = true).
    { rewrite occurs_append. apply orb_true_iff. right. reflexivity. }
    rewrite O. split; [| discriminate].
    intros H. exfalso.
    destruct (Path.all_char Path.sep (x ++ String Path.sep "")) eqn:A.
    + destruct x; discriminate.
    + apply rstrip_empty in H. congruence.
  - split; [intros _; apply cut_last_None, E | reflexivity].
Qed.

(** Without an output directory the files go to the directory part of the
    input path, and to the current directory when the path has none. *)
Theorem default_output_dir (filepath : string) :
  run_dir filepath None
  = (if occurs Path.sep filepath then Path.dirname filepath else "."%string) /\
  (Path.dirname filepath = EmptyString <-> occurs Path.sep filepath = false).
Proof.
  split; [| apply dirname_empty].
  unfold run_dir. destruct (occurs Path.sep filepath) eqn:O.
  - destruct (String.eqb_spec (Path.dirname filepath) "") as [C | _];
      [| reflexivity].
    apply dirname_empty in C. congruence.
  - replace (Path.dirname filepath) with EmptyString
      by (symmetry; apply dirname_empty, O).
    reflexivity.
Qed.

(** ** The histogram does not depend on the order of the values *)

Lemma clean_data_perm (data data' : list sample) :
  Permutation data data' -> Permutation (clean_data data) (clean_data data').
Proof.
  induction 1 as [| s l l' _ IH | s t l | l l' l'' _ IH1 _ IH2]; simpl.
  - constructor.
  - apply Permutation_app_head, IH.
  - rewrite !app_assoc. apply Permutation_app_tail, Permutation_app_comm.
  - etransitivity; eassumption.
Qed.

Lemma total_perm (a a' : list Q) : Permutation a a' -> total a == total a'.
Proof.
  induction 1 as [| x l l' _ IH | x y l | l l' l'' _ IH1 _ IH2]; simpl.
  - reflexivity.
  - rewrite IH. reflexivity.
  - ring.
  - rewrite IH1. exact IH2.
Qed.

Lemma mean_perm (a a' : list Q) : Permutation a a' -> Np.mean a == Np.mean a'.
Proof.
  intros H. unfold Np.mean.
  rewrite !sum_total, (total_perm H), (Permutation_length H). reflexivity.
Qed.

Lemma mean_map_ext (f g : Q -> Q) (l : list Q) :
  (forall x, f x == g x) -> Np.mean (map f l) == Np.mean (map g l).
Proof.
  intros H. unfold Np.mean.
  rewrite !sum_total, !length_map, (total_map_ext _ _ l H). reflexivity.
Qed.

Lemma var_perm (a a' : list Q) : Permutation a a' -> Np.var a == Np.var a'.
Proof.
  intros H. unfold Np.var. cbv zeta.
  rewrite (mean_perm (Permutation_map _ H)).
  apply mean_map_ext. intros x. rewrite (mean_perm H). reflexivity.
Qed.

Lemma minimum_unique (a a' : list Q) (m m' : Q) :
  Permutation a a' -> is_minimum m a -> is_minimum m' a' -> m == m'.
Proof.
  intros H [I L] [I' L']. apply Qle_antisym.
  - apply L. eapply Permutation_in; [symmetry; exact H | exact I'].
  - apply L'. eapply Permutation_in; [exact H | exact I].
Qed.

Lemma maximum_unique (a a' : list Q) (m m' : Q) :
  Permutation a a' -> is_maximum m a -> is_maximum m' a' -> m == m'.
Proof.
  intros H [I L] [I' L']. apply Qle_antisym.
  - apply L'. eapply Permutation_in; [exact H | exact I].
  - apply L. eapply Permutation_in; [symmetry; exact H | exact I'].
Qed.

Lemma outer_edges_compat (mn mx mn' mx' : Q) :
  mn == mn' -> mx == mx' ->
  fst (outer_edges mn mx) == fst (outer_edges mn' mx') /\
  snd (outer_edges mn mx) == snd (outer_edges mn' mx').
Proof.
  intros Hn Hx. unfold outer_edges.
  destruct (Qeq_bool mn mx) eqn:E, (Qeq_bool mn' mx') eqn:E'; simpl.
  - rewrite Hn, Hx. split; reflexivity.
  - apply Qeq_bool_iff in E. apply Qeq_bool_neq in E'.
    exfalso. apply E'. rewrite <- Hn, <- Hx. exact E.
  - apply Qeq_bool_iff in E'. apply Qeq_bool_neq in E.
    exfalso. apply E. rewrite Hn, Hx. exact E'.
  - split; assumption.
Qed.

Lemma bin_of_compat (lo hi lo' hi' : Q) (n : nat) (x : Q) :
  lo == lo' -> hi == hi' -> bin_of lo hi n x = bin_of lo' hi' n x.
Proof.
  intros Hl Hh.
  assert (E : position lo hi n x == position lo' hi' n x)
    by (unfold position; rewrite Hl, Hh; reflexivity).
  assert (F : Qfloor (position lo hi n x) = Qfloor (position lo' hi' n x))
    by (rewrite E; reflexivity).
  unfold bin_of. rewrite F. reflexivity.
Qed.

Lemma count_eq_perm (j : Z) (l l' : list Z) :
  Permutation l l' -> Np.count_eq j l = Np.count_eq j l'.
Proof.
  induction 1 as [| x l l' _ IH | x y l | l l' l'' _ IH1 _ IH2].
  - reflexivity.
  - rewrite !count_eq_cons, IH. reflexivity.
  - rewrite !count_eq_cons. lia.
  - congruence.
Qed.

Lemma bin_counts_compat (lo hi lo' hi' : Q) (n : nat) (a a' : list Q) :
  lo == lo' -> hi == hi' -> Permutation a a' ->
  bin_counts lo hi n a = bin_counts lo' hi' n a'.
Proof.
  intros Hl Hh H. unfold bin_counts. apply map_ext. intros j.
  rewrite (map_ext _ (bin_of lo' hi' n))
    by (intros x; apply bin_of_compat; assumption).
  apply count_eq_perm, Permutation_map, H.
Qed.

Lemma equally_spaced_compat (lo hi lo' hi' : Q) (n i : nat) :
  lo == lo' -> hi == hi' ->
  equally_spaced lo hi n i == equally_spaced lo' hi' n i.
Proof. intros Hl Hh. unfold equally_spaced. rewrite Hl, Hh. reflexivity. Qed.


